(** * LampaTrack: push-notification dispatch

    A shallow embedding of the push-notification subsystem of the
    LampaTrack application:

    - the [push_subscriptions] table (SQL migration) with its
      [UNIQUE(user_id, endpoint)] constraint, and the three statements the
      application runs on it: select by user, upsert on conflict
      [(user_id, endpoint)], delete by endpoint list;
    - the [send-push-notification] edge function (the [Deno.serve]
      callback): method check, field validation, VAPID configuration check,
      subscription lookup, payload construction, the sequential delivery
      loop with its per-attempt [try]/[catch], the batched delete and the
      aggregate response.

    Effects are explicit.  The edge function is a pure function of the
    environment variables, the world (table contents, store faults and the
    push transport's answers) and the request; it returns the HTTP response,
    the chronological trace of the external calls it made, and the table as
    the call leaves it.

    Library calls are answered by the world: [createClient] and
    [setVapidDetails] return or throw (a missing URL or key, malformed VAPID
    details), and what they throw lands in the handler's outer [catch], as
    does what [req.json()] and the destructuring throw; [select] and
    [delete] resolve to a [{ data, error }] object; [sendNotification]
    resolves or rejects with an error object that may carry a [statusCode].
    Every awaited call settles; a call that never does is outside the
    model.  Request fields are strings when present, as the trigger's JSON
    interface declares them.  The table is a list of rows, so that the
    uniqueness constraint is a property to be stated and preserved rather
    than one built into the representation; the row-level-security policies
    of the migration (who may run which statement) are not part of the
    model. *)

From Stdlib Require Import List String Ascii ZArith Bool Arith Lia.
Import ListNotations.
Open Scope string_scope.
Open Scope list_scope.

(** ** JavaScript truthiness of an optional string *)

(** [None] is [undefined] (an absent field or an unset variable); the empty
    string is falsy as well. *)
Definition truthy (v : option string) : bool :=
  match v with
  | Some s => negb (s =? "")
  | None => false
  end.

(** The string carried by a value already known to be truthy. *)
Definition str (v : option string) : string :=
  match v with
  | Some s => s
  | None => ""
  end.

(** [a || b] on optional strings. *)
Definition js_or (v : option string) (dflt : string) : string :=
  if truthy v then str v else dflt.

(** ** The subscription store *)

Module Store.

(** One row of [public.push_subscriptions]. *)
Record Row := mkRow {
  id : string;
  user_id : string;
  endpoint : string;
  p256dh : string;
  auth : string;
  created_at : Z
}.

Definition Table := list Row.

(** [UNIQUE(user_id, endpoint)]: no two rows agree on both columns. *)
Definition same_key (r1 r2 : Row) : bool :=
  (user_id r1 =? user_id r2) && (endpoint r1 =? endpoint r2).

Fixpoint unique_user_endpoint (t : Table) : bool :=
  match t with
  | [] => true
  | r :: rest => negb (existsb (same_key r) rest) && unique_user_endpoint rest
  end.

(** [.select("*").eq("user_id", uid)] *)
Definition select_by_user (uid : string) (t : Table) : list Row :=
  filter (fun r => user_id r =? uid) t.

(** [.delete().in("endpoint", endpoints)]: every row whose endpoint is
    listed goes, whoever owns it. *)
Definition mem (s : string) (l : list string) : bool :=
  existsb (String.eqb s) l.

Definition delete_in_endpoint (endpoints : list string) (t : Table) : Table :=
  filter (fun r => negb (mem (endpoint r) endpoints)) t.

(** [.delete().eq("user_id", uid).eq("endpoint", e)] (the hook's
    [unsubscribe]). *)
Definition delete_user_endpoint (uid e : string) (t : Table) : Table :=
  filter (fun r => negb ((user_id r =? uid) && (endpoint r =? e))) t.

(** The object handed to [.upsert(...)]: the four columns the client
    supplies; [id] and [created_at] are left to their column defaults. *)
Record Values := mkValues {
  v_user_id : string;
  v_endpoint : string;
  v_p256dh : string;
  v_auth : string
}.

Definition conflicts (v : Values) (r : Row) : bool :=
  (user_id r =? v_user_id v) && (endpoint r =? v_endpoint v).

(** [ON CONFLICT (user_id, endpoint) DO UPDATE]: the supplied columns are
    overwritten, the others are kept. *)
Definition update_row (v : Values) (r : Row) : Row :=
  {| id := id r;
     user_id := v_user_id v;
     endpoint := v_endpoint v;
     p256dh := v_p256dh v;
     auth := v_auth v;
     created_at := created_at r |}.

(** The row the insert path appends; [fresh_id] and [now] stand for
    [gen_random_uuid()] and [now()]. *)
Definition insert_row (fresh_id : string) (now : Z) (v : Values) : Row :=
  {| id := fresh_id;
     user_id := v_user_id v;
     endpoint := v_endpoint v;
     p256dh := v_p256dh v;
     auth := v_auth v;
     created_at := now |}.

(** What the conflict path does to each row: the conflicting row is
    updated, the others are left alone. *)
Definition resolve_conflict (v : Values) (r : Row) : Row :=
  if conflicts v r then update_row v r else r.

(** [.upsert(v, { onConflict: 'user_id,endpoint' })]: update on conflict,
    insert otherwise. *)
Definition upsert (fresh_id : string) (now : Z) (v : Values) (t : Table) : Table :=
  if existsb (conflicts v) t
  then map (resolve_conflict v) t
  else t ++ [insert_row fresh_id now v].

(** The rows stored for one [(user_id, endpoint)] pair. *)
Definition rows_for (uid e : string) (t : Table) : list Row :=
  filter (fun r => (user_id r =? uid) && (endpoint r =? e)) t.

End Store.

(** ** The browser hook's registration ([usePushNotifications.subscribe]) *)

Module Hook.

(** [sub.toJSON()] *)
Record Keys := mkKeys { p256dh : string; auth : string }.
Record SubJson := mkSubJson { endpoint : string; keys : Keys }.

(** The object built for the upsert from the signed-in user and the
    browser's subscription. *)
Definition upsert_values (user_id : string) (subJson : SubJson) : Store.Values :=
  {| Store.v_user_id := user_id;
     Store.v_endpoint := endpoint subJson;
     Store.v_p256dh := p256dh (keys subJson);
     Store.v_auth := auth (keys subJson) |}.

(** The store write of one successful [subscribe] call. *)
Definition register (fresh_id : string) (now : Z)
           (user_id : string) (subJson : SubJson) (t : Store.Table) : Store.Table :=
  Store.upsert fresh_id now (upsert_values user_id subJson) t.

End Hook.

(** ** The push transport ([web-push]) *)

Module WebPush.

Record Keys := mkKeys { p256dh : string; auth : string }.

(** The [pushSubscription] object [sendNotification] receives. *)
Record PushSubscription := mkPushSubscription {
  endpoint : string;
  keys : Keys
}.

(** The optional third argument of [sendNotification]. *)
Record RequestOptions := mkRequestOptions {
  timeout : option nat
}.

(** The value a rejected [sendNotification] throws, read through the cast
    [e as { statusCode?: number }]. *)
Record PushError := mkPushError {
  statusCode : option Z;
  message : string
}.

(** How the awaited promise settles. *)
Inductive SendResult :=
| Resolved
| Rejected (e : PushError).

End WebPush.

(** ** The edge function [send-push-notification] *)

Module Handler.

Import WebPush.

(** *** Requests, environment, responses *)

(** The three fields destructured from [await req.json()]. *)
Record Fields := mkFields {
  signalement_id : option string;
  user_id : option string;
  new_status : option string
}.

(** [await req.json()] followed by the destructuring: it throws (the body
    is empty or not JSON, or is [null]) or yields the three fields. *)
Inductive Json :=
| Throws (err : string)
| Parsed (f : Fields).

Record Request := mkRequest {
  method : string;
  json : Json
}.

(** [Deno.env]: the two variables read with a non-null assertion are
    strings, the VAPID ones may be unset. *)
Record Env := mkEnv {
  SUPABASE_URL : string;
  SUPABASE_SERVICE_ROLE_KEY : string;
  VAPID_PUBLIC_KEY : option string;
  VAPID_PRIVATE_KEY : option string;
  VAPID_SUBJECT : option string
}.

Definition Headers := list (string * string).

Definition corsHeaders : Headers :=
  [ ("Access-Control-Allow-Origin", "*");
    ("Access-Control-Allow-Headers",
     "authorization, x-client-info, apikey, content-type, x-supabase-client-platform, x-supabase-client-platform-version, x-supabase-client-runtime, x-supabase-client-runtime-version") ].

(** [{ ...corsHeaders, "Content-Type": "application/json" }] *)
Definition jsonHeaders : Headers :=
  corsHeaders ++ [ ("Content-Type", "application/json") ].

(** The response bodies the function can produce, before
    [JSON.stringify]. *)
Inductive Body :=
| BNull
| BError (error : string)
| BMessage (sent : nat) (message : string)
| BResult (sent : nat) (failed : nat).

Record Response := mkResponse {
  status : Z;
  headers : Headers;
  body : Body
}.

(** *** The notification payload *)

Record Data := mkData {
  data_signalement_id : string;
  data_status : string
}.

(** The object passed to [JSON.stringify]; the transport receives its
    serialisation, which determines and is determined by these fields. *)
Record Payload := mkPayload {
  title : string;
  body_text : string;
  icon : string;
  badge : string;
  tag : string;
  data : Data
}.

Definition notificationPayload (signalement_id new_status : string) : Payload :=
  let isApproved := new_status =? "approved" in
  {| title := if isApproved then "✅ Signalement approuvé" else "❌ Signalement rejeté";
     body_text := if isApproved
                  then "Votre signalement a été approuvé par l'administrateur."
                  else "Votre signalement a été rejeté par l'administrateur.";
     icon := "/pwa-192x192.png";
     badge := "/pwa-192x192.png";
     tag := "signalement-" ++ signalement_id;
     data := {| data_signalement_id := signalement_id; data_status := new_status |} |}.

(** *** The world the function runs in *)

Record World := mkWorld {
  (** the rows of [push_subscriptions] when the request arrives *)
  table : Store.Table;
  (** [Some e]: the lookup comes back with [error = e] and no data *)
  select_error : option string;
  (** [Some e]: the delete comes back with [error = e] and removes nothing *)
  delete_error : option string;
  (** how the [n]-th [sendNotification] call of the request settles *)
  transport : nat -> PushSubscription -> Payload -> SendResult;
  (** [createClient(url, key)]: [Some err] when it throws [err] *)
  createClient : string -> string -> option string;
  (** [webpush.setVapidDetails(subject, publicKey, privateKey)]: [Some err]
      when it throws [err] *)
  setVapidDetails : string -> string -> string -> option string
}.

(** The [{ data, error }] object of the lookup. *)
Record SelectResult := mkSelectResult {
  sel_data : option (list Store.Row);
  sel_error : option string
}.

Definition select (w : World) (uid : string) : SelectResult :=
  match select_error w with
  | Some e => {| sel_data := None; sel_error := Some e |}
  | None => {| sel_data := Some (Store.select_by_user uid (table w)); sel_error := None |}
  end.

Definition is_some {A} (v : option A) : bool :=
  match v with Some _ => true | None => false end.

(** The array behind a non-null [data]. *)
Definition rows (d : option (list Store.Row)) : list Store.Row :=
  match d with Some l => l | None => [] end.

Definition delete (w : World) (endpoints : list string) : Store.Table :=
  match delete_error w with
  | Some _ => table w
  | None => Store.delete_in_endpoint endpoints (table w)
  end.

(** *** The trace of external calls, in the order they happen *)

Inductive Event :=
| EvSetVapidDetails (subject publicKey privateKey : string)
| EvSelect (uid : string)
| EvSendNotification (sub : PushSubscription) (payload : Payload)
                     (options : option RequestOptions)
| EvSettled (r : SendResult)
| EvConsoleError (endpoint : string) (e : PushError)
| EvDelete (endpoints : list string)
| EvConsoleErrorOuter (err : string).

(** *** The delivery loop *)

Record LoopState := mkLoopState {
  sent : nat;
  failedEndpoints : list string;
  (** [sendNotification] calls made so far *)
  calls : nat;
  (** events so far *)
  log : list Event
}.

Definition status_is (code : option Z) (n : Z) : bool :=
  match code with
  | Some c => (c =? n)%Z
  | None => false
  end.

(** One iteration of [for (const sub of subscriptions)]: the call is
    issued, awaited, and its outcome handled before the next iteration
    starts. *)
Definition attempt (w : World) (payload : Payload)
           (st : LoopState) (sub : Store.Row) : LoopState :=
  let pushSubscription :=
    {| endpoint := Store.endpoint sub;
       keys := {| p256dh := Store.p256dh sub; auth := Store.auth sub |} |} in
  let issued := log st ++ [EvSendNotification pushSubscription payload None] in
  match transport w (calls st) pushSubscription payload with
  | Resolved =>
      {| sent := S (sent st);
         failedEndpoints := failedEndpoints st;
         calls := S (calls st);
         log := issued ++ [EvSettled Resolved] |}
  | Rejected err =>
      let logged := issued ++ [EvSettled (Rejected err);
                               EvConsoleError (Store.endpoint sub) err] in
      if status_is (statusCode err) 410 || status_is (statusCode err) 404
      then {| sent := sent st;
              failedEndpoints := failedEndpoints st ++ [Store.endpoint sub];
              calls := S (calls st);
              log := logged |}
      else {| sent := sent st;
              failedEndpoints := failedEndpoints st;
              calls := S (calls st);
              log := logged |}
  end.

Definition deliver_all (w : World) (payload : Payload)
           (st : LoopState) (subscriptions : list Store.Row) : LoopState :=
  fold_left (attempt w payload) subscriptions st.

(** *** The handler *)

Record Outcome := mkOutcome {
  response : Response;
  trace : list Event;
  table_after : Store.Table
}.

(** The outer [catch]: the error is logged and answered as a 500. *)
Definition caught (err : string) (done : list Event) (w : World) : Outcome :=
  {| response := {| status := 500; headers := jsonHeaders; body := BError err |};
     trace := done ++ [EvConsoleErrorOuter err];
     table_after := table w |}.

Definition handler (env : Env) (w : World) (req : Request) : Outcome :=
  if method req =? "OPTIONS" then
    {| response := {| status := 200; headers := corsHeaders; body := BNull |};
       trace := [];
       table_after := table w |}
  else
    match createClient w (SUPABASE_URL env) (SUPABASE_SERVICE_ROLE_KEY env) with
    | Some err => caught err [] w
    | None =>
      match json req with
      | Throws err => caught err [] w
      | Parsed f =>
          if negb (truthy (signalement_id f)) || negb (truthy (user_id f))
             || negb (truthy (new_status f))
          then
            {| response := {| status := 400; headers := jsonHeaders;
                              body := BError "Missing fields" |};
               trace := [];
               table_after := table w |}
          else
            let vapidPublicKey := VAPID_PUBLIC_KEY env in
            let vapidPrivateKey := VAPID_PRIVATE_KEY env in
            let vapidSubject := js_or (VAPID_SUBJECT env) "mailto:admin@lampatrack.app" in
            if negb (truthy vapidPublicKey) || negb (truthy vapidPrivateKey)
            then
              {| response := {| status := 500; headers := jsonHeaders;
                                body := BError "VAPID keys not configured" |};
                 trace := [];
                 table_after := table w |}
            else
              let configured :=
                EvSetVapidDetails vapidSubject (str vapidPublicKey) (str vapidPrivateKey) in
              match setVapidDetails w vapidSubject (str vapidPublicKey) (str vapidPrivateKey) with
              | Some err => caught err [configured] w
              | None =>
              let res := select w (str (user_id f)) in
              let subscriptions := sel_data res in
              let subError := sel_error res in
              let queried := [configured; EvSelect (str (user_id f))] in
              if is_some subError || negb (is_some subscriptions)
                 || (List.length (rows subscriptions) =? 0)%nat
              then
                {| response := {| status := 200; headers := jsonHeaders;
                                  body := BMessage 0 "No subscriptions found" |};
                   trace := queried;
                   table_after := table w |}
              else
                let payload := notificationPayload (str (signalement_id f))
                                                   (str (new_status f)) in
                let st := deliver_all w payload
                            {| sent := 0; failedEndpoints := []; calls := 0;
                               log := queried |}
                            (rows subscriptions) in
                if (0 <? List.length (failedEndpoints st))%nat
                then
                  {| response := {| status := 200; headers := jsonHeaders;
                                    body := BResult (sent st)
                                                    (List.length (failedEndpoints st)) |};
                     trace := log st ++ [EvDelete (failedEndpoints st)];
                     table_after := delete w (failedEndpoints st) |}
                else
                  {| response := {| status := 200; headers := jsonHeaders;
                                    body := BResult (sent st)
                                                    (List.length (failedEndpoints st)) |};
                     trace := log st;
                     table_after := table w |}
              end
      end
    end.

End Handler.

(** ** Vocabulary for the statements *)

Module Dispatch.

Import WebPush Handler.

(** The object the loop builds from a row. *)
Definition pushSubscription_of (sub : Store.Row) : PushSubscription :=
  {| endpoint := Store.endpoint sub;
     keys := {| p256dh := Store.p256dh sub; auth := Store.auth sub |} |}.

(** The attempts of a batch: the position of each call among the
    request's [sendNotification] calls, with the row it is made for. *)
Definition attempts_from (n : nat) (subs : list Store.Row) : list (nat * Store.Row) :=
  combine (seq n (List.length subs)) subs.

Definition result_of (w : World) (payload : Payload) (a : nat * Store.Row) : SendResult :=
  transport w (fst a) (pushSubscription_of (snd a)) payload.

(** The three delivery outcomes of the specification, read off a settled
    call: resolved; rejected with "gone" (410) or "not found" (404); any
    other rejection. *)
Inductive DeliveryStatus := delivered | transient_failure | permanent_failure.

Definition gone_or_not_found (e : PushError) : Prop :=
  statusCode e = Some 410%Z \/ statusCode e = Some 404%Z.

Inductive classified : SendResult -> DeliveryStatus -> Prop :=
| cl_delivered : classified Resolved delivered
| cl_permanent e : gone_or_not_found e -> classified (Rejected e) permanent_failure
| cl_transient e : ~ gone_or_not_found e -> classified (Rejected e) transient_failure.

Definition is_resolved (r : SendResult) : bool :=
  match r with Resolved => true | Rejected _ => false end.

Definition is_gone (r : SendResult) : bool :=
  match r with
  | Resolved => false
  | Rejected e => status_is (statusCode e) 410 || status_is (statusCode e) 404
  end.

(** What one attempt adds to the trace. *)
Definition attempt_events (w : World) (payload : Payload) (a : nat * Store.Row) : list Event :=
  let r := result_of w payload a in
  EvSendNotification (pushSubscription_of (snd a)) payload None
  :: EvSettled r
  :: match r with
     | Resolved => []
     | Rejected e => [EvConsoleError (Store.endpoint (snd a)) e]
     end.

(** Projections of a trace. *)
Definition sends (tr : list Event) : list PushSubscription :=
  flat_map (fun ev => match ev with
                      | EvSendNotification sub _ _ => [sub]
                      | _ => []
                      end) tr.

Definition payloads (tr : list Event) : list Payload :=
  flat_map (fun ev => match ev with
                      | EvSendNotification _ p _ => [p]
                      | _ => []
                      end) tr.

Definition send_options (tr : list Event) : list (option RequestOptions) :=
  flat_map (fun ev => match ev with
                      | EvSendNotification _ _ o => [o]
                      | _ => []
                      end) tr.

Definition selects (tr : list Event) : list string :=
  flat_map (fun ev => match ev with EvSelect u => [u] | _ => [] end) tr.

Definition deletes (tr : list Event) : list (list string) :=
  flat_map (fun ev => match ev with EvDelete l => [l] | _ => [] end) tr.

(** Store accesses of a trace: lookups and deletes. *)
Definition store_accesses (tr : list Event) : nat :=
  List.length (selects tr) + List.length (deletes tr).

(** Send and settle events only, in order: [true] for a call being
    issued, [false] for a call settling. *)
Definition issue_settle (tr : list Event) : list bool :=
  flat_map (fun ev => match ev with
                      | EvSendNotification _ _ _ => [true]
                      | EvSettled _ => [false]
                      | _ => []
                      end) tr.

(** Concurrent issue: every call of the batch is issued before any of
    them settles. *)
Fixpoint issued_concurrently (p : list bool) : bool :=
  match p with
  | [] => true
  | true :: rest => issued_concurrently rest
  | false :: rest => forallb negb rest
  end.

(** Sequential issue: each call settles before the next is issued. *)
Fixpoint issued_sequentially (p : list bool) : bool :=
  match p with
  | [] => true
  | true :: false :: rest => issued_sequentially rest
  | _ => false
  end.

Definition has_timeout (o : option RequestOptions) : bool :=
  match o with
  | Some opts => is_some (timeout opts)
  | None => false
  end.

(** A request that passes the method check and the field validation. *)
Definition valid (req : Request) : bool :=
  negb (method req =? "OPTIONS")
  && match json req with
     | Throws _ => false
     | Parsed f => truthy (signalement_id f) && truthy (user_id f) && truthy (new_status f)
     end.

Definition fields (req : Request) : Fields :=
  match json req with
  | Parsed f => f
  | Throws _ => {| signalement_id := None; user_id := None; new_status := None |}
  end.

(** Delivery credentials present. *)
Definition configured (env : Env) : bool :=
  truthy (VAPID_PUBLIC_KEY env) && truthy (VAPID_PRIVATE_KEY env).

(** [createClient] returned. *)
Definition client_created (env : Env) (w : World) : bool :=
  negb (is_some (createClient w (SUPABASE_URL env) (SUPABASE_SERVICE_ROLE_KEY env))).

(** [setVapidDetails] returned on the environment's subject and keys. *)
Definition vapid_accepted (env : Env) (w : World) : bool :=
  negb (is_some (setVapidDetails w (js_or (VAPID_SUBJECT env) "mailto:admin@lampatrack.app")
                                 (str (VAPID_PUBLIC_KEY env)) (str (VAPID_PRIVATE_KEY env)))).

(** The two libraries took the deployment's configuration. *)
Definition accepted (env : Env) (w : World) : bool :=
  client_created env w && vapid_accepted env w.

(** The two places a rejected configuration is thrown from: before the
    body is read, or at [setVapidDetails]. *)
Definition thrown_from (env : Env) (w : World) (req : Request) (o : Outcome) : Prop :=
  exists err,
    o = caught err [] w
    \/ o = caught err [EvSetVapidDetails
                         (js_or (VAPID_SUBJECT env) "mailto:admin@lampatrack.app")
                         (str (VAPID_PUBLIC_KEY env)) (str (VAPID_PRIVATE_KEY env))] w.


(** The lookup of a valid request returns these rows, without error. *)
Definition subscriptions_of (w : World) (req : Request) : list Store.Row :=
  Store.select_by_user (str (user_id (fields req))) (table w).

(** The trace of a valid, configured request up to and including the
    lookup. *)
Definition queried (env : Env) (req : Request) : list Event :=
  [ EvSetVapidDetails (js_or (VAPID_SUBJECT env) "mailto:admin@lampatrack.app")
                      (str (VAPID_PUBLIC_KEY env)) (str (VAPID_PRIVATE_KEY env));
    EvSelect (str (user_id (fields req))) ].

(** The payload built for a valid request. *)
Definition payload_of (req : Request) : Payload :=
  notificationPayload (str (signalement_id (fields req))) (str (new_status (fields req))).

(** The attempts of a request's batch and how each settles. *)
Definition batch (w : World) (req : Request) : list (nat * Store.Row) :=
  attempts_from 0 (subscriptions_of w req).

Definition results (w : World) (req : Request) : list SendResult :=
  map (result_of w (payload_of req)) (batch w req).

(** The endpoints of the attempts rejected with 410 or 404, in order. *)
Definition gone_endpoints (w : World) (req : Request) : list string :=
  map (fun a => Store.endpoint (snd a))
      (filter (fun a => is_gone (result_of w (payload_of req) a)) (batch w req)).

(** Failing closed: an error body, and nothing handed to the transport. *)
Definition fails_closed (o : Outcome) : Prop :=
  (exists msg, body (response o) = BError msg) /\ sends (trace o) = [].

(** The 200 response carrying a body. *)
Definition ok (b : Body) : Response :=
  {| status := 200; headers := jsonHeaders; body := b |}.

End Dispatch.

(** ** The key conversion of the browser hook ([urlBase64ToUint8Array]) *)

(** Strings here are sequences of one-byte characters, which is what
    base64 text and the binary string [atob] returns are made of; [atob]
    itself is the browser's and stays a parameter. *)

Module Base64Url.

(** ['='.repeat(n)] and the like. *)
Fixpoint js_repeat (s : string) (n : nat) : string :=
  match n with
  | 0 => EmptyString
  | S k => (s ++ js_repeat s k)%string
  end.

(** [.replace(/a/g, 'b')] for a one-character pattern. *)
Fixpoint replace_char (a b : ascii) (s : string) : string :=
  match s with
  | EmptyString => EmptyString
  | String c rest => String (if Ascii.eqb c a then b else c) (replace_char a b rest)
  end.

Definition padding (base64String : string) : string :=
  js_repeat "=" ((4 - String.length base64String mod 4) mod 4).

(** The string handed to [window.atob]. *)
Definition base64 (base64String : string) : string :=
  replace_char "_"%char "/"%char
    (replace_char "-"%char "+"%char (base64String ++ padding base64String)%string).

(** [Uint8Array.from([...rawData].map((char) => char.charCodeAt(0)))] *)
Definition char_codes (rawData : string) : list N :=
  map N_of_ascii (list_ascii_of_string rawData).

(** [atob] is the browser's; [None] stands for its [InvalidCharacterError]. *)
Definition urlBase64ToUint8Array (atob : string -> option string)
           (base64String : string) : option (list N) :=
  match atob (base64 base64String) with
  | Some rawData => Some (char_codes rawData)
  | None => None
  end.

(** The two alphabets. *)
Definition is_alphanumeric (c : ascii) : bool :=
  let n := nat_of_ascii c in
  ((65 <=? n) && (n <=? 90) || (97 <=? n) && (n <=? 122) || (48 <=? n) && (n <=? 57))%nat.

Definition is_base64url_char (c : ascii) : bool :=
  is_alphanumeric c || Ascii.eqb c "-"%char || Ascii.eqb c "_"%char.

Definition is_base64_char (c : ascii) : bool :=
  is_alphanumeric c || Ascii.eqb c "+"%char || Ascii.eqb c "/"%char.

Fixpoint all_chars (P : ascii -> bool) (s : string) : bool :=
  match s with
  | EmptyString => true
  | String c rest => P c && all_chars P rest
  end.

End Base64Url.

(** ** The browser hook's [subscribe] and [unsubscribe] *)

Module PushHook.

Definition VAPID_PUBLIC_KEY : string :=
  "BEkNKqoY4CBrp2jpHEdcG98BSk5IqizxXPhrI1IbOSZiOiEHTXcZka2cKLbxvxr8LZ-c-dr47O73g0a--tAeu7o".

(** The hook's React state. *)
Record State := mkState {
  isSupported : bool;
  permission : string;
  isSubscribed : bool;
  loading : bool
}.

(** How an awaited browser call settles. *)
Inductive Settled (A : Type) :=
| Fulfilled (a : A)
| Thrown (err : string).
Arguments Fulfilled {A} a.
Arguments Thrown {A} err.

(** What the browser and the backend answer during one call of the hook. *)
Record Browser := mkBrowser {
  (** [await navigator.serviceWorker.ready] *)
  sw_ready : Settled unit;
  (** [await Notification.requestPermission()] *)
  requestPermission : Settled string;
  (** [window.atob] *)
  atob : string -> option string;
  (** [await reg.pushManager.subscribe({ ..., applicationServerKey })],
      then [toJSON()] *)
  pushManager_subscribe : list N -> Settled Hook.SubJson;
  (** [await reg.pushManager.getSubscription()]: the endpoint of the
      current subscription, or [null] *)
  getSubscription : Settled (option string);
  (** [await sub.unsubscribe()] *)
  sub_unsubscribe : Settled bool;
  (** the [error] of the upsert; when set, the table is not written *)
  upsert_error : option string;
  (** the [error] of the delete; when set, nothing is removed *)
  delete_error : option string;
  (** [gen_random_uuid()] and [now()] for an inserted row *)
  fresh_id : string;
  now : Z
}.

Inductive UiEvent :=
| ToastSuccess (msg : string)
| ToastError (msg : string)
| ConsoleError (label err : string)
| StoreUpsert (v : Store.Values)
| StoreDelete (user_id endpoint : string).

Record Run := mkRun {
  state : State;
  events : list UiEvent;
  table : Store.Table
}.

Definition setLoading (b : bool) (st : State) : State :=
  {| isSupported := isSupported st; permission := permission st;
     isSubscribed := isSubscribed st; loading := b |}.

Definition setPermission (p : string) (st : State) : State :=
  {| isSupported := isSupported st; permission := p;
     isSubscribed := isSubscribed st; loading := loading st |}.

Definition setIsSubscribed (b : bool) (st : State) : State :=
  {| isSupported := isSupported st; permission := permission st;
     isSubscribed := b; loading := loading st |}.

(** The [catch] and [finally] blocks of [subscribe], entered with the state
    reached when the exception was thrown. *)
Definition subscribe_caught (err : string) (evs : list UiEvent)
           (st : State) (t : Store.Table) : Run :=
  {| state := setLoading false st;
     events := evs ++ [ConsoleError "Push subscribe error:" err;
                       ToastError "Impossible d'activer les notifications."];
     table := t |}.

(** [subscribe]; [user] is the signed-in user's id, if any. *)
Definition subscribe (user : option string) (b : Browser)
           (st : State) (t : Store.Table) : Run :=
  if negb (Handler.is_some user) || negb (isSupported st) then
    {| state := st; events := []; table := t |}
  else if negb (truthy (Some VAPID_PUBLIC_KEY)) then
    {| state := st;
       events := [ToastError "Les notifications push ne sont pas encore configurées."];
       table := t |}
  else
    let st1 := setLoading true st in
    match sw_ready b with
    | Thrown err => subscribe_caught err [] st1 t
    | Fulfilled _ =>
      match requestPermission b with
      | Thrown err => subscribe_caught err [] st1 t
      | Fulfilled perm =>
        let st2 := setPermission perm st1 in
        if negb (perm =? "granted") then
          {| state := setLoading false (setLoading false st2);
             events := [ToastError "Permission refusée pour les notifications."];
             table := t |}
        else
          match Base64Url.urlBase64ToUint8Array (atob b) VAPID_PUBLIC_KEY with
          | None => subscribe_caught "InvalidCharacterError" [] st2 t
          | Some applicationServerKey =>
            match pushManager_subscribe b applicationServerKey with
            | Thrown err => subscribe_caught err [] st2 t
            | Fulfilled subJson =>
              let v := Hook.upsert_values (str user) subJson in
              match upsert_error b with
              | Some err => subscribe_caught err [StoreUpsert v] st2 t
              | None =>
                {| state := setLoading false (setIsSubscribed true st2);
                   events := [StoreUpsert v; ToastSuccess "Notifications push activées !"];
                   table := Hook.register (fresh_id b) (now b) (str user) subJson t |}
              end
            end
          end
      end
    end.

Definition unsubscribe_caught (err : string) (evs : list UiEvent)
           (st : State) (t : Store.Table) : Run :=
  {| state := setLoading false st;
     events := evs ++ [ConsoleError "Push unsubscribe error:" err;
                       ToastError "Impossible de désactiver les notifications."];
     table := t |}.

(** [unsubscribe] *)
Definition unsubscribe (user : option string) (b : Browser)
           (st : State) (t : Store.Table) : Run :=
  if negb (Handler.is_some user) then
    {| state := st; events := []; table := t |}
  else
    let st1 := setLoading true st in
    match sw_ready b with
    | Thrown err => unsubscribe_caught err [] st1 t
    | Fulfilled _ =>
      match getSubscription b with
      | Thrown err => unsubscribe_caught err [] st1 t
      | Fulfilled None =>
          {| state := setLoading false (setIsSubscribed false st1);
             events := [ToastSuccess "Notifications push désactivées."];
             table := t |}
      | Fulfilled (Some endpoint) =>
        match sub_unsubscribe b with
        | Thrown err => unsubscribe_caught err [] st1 t
        | Fulfilled _ =>
          {| state := setLoading false (setIsSubscribed false st1);
             events := [StoreDelete (str user) endpoint;
                        ToastSuccess "Notifications push désactivées."];
             table := match delete_error b with
                      | Some _ => t
                      | None => Store.delete_user_endpoint (str user) endpoint t
                      end |}
        end
      end
    end.

(** [checkSubscription] *)
Definition checkSubscription (user : option string) (b : Browser) (st : State) : State :=
  if negb (Handler.is_some user) then st
  else
    match sw_ready b with
    | Thrown _ => setIsSubscribed false st
    | Fulfilled _ =>
      match getSubscription b with
      | Thrown _ => setIsSubscribed false st
      | Fulfilled sub => setIsSubscribed (Handler.is_some sub) st
      end
    end.

(** A call that went through to the success toast. *)
Definition succeeded (r : Run) : bool :=
  existsb (fun ev => match ev with ToastSuccess _ => true | _ => false end) (events r).

Definition toasts (r : Run) : nat :=
  List.length (filter (fun ev => match ev with
                                 | ToastSuccess _ | ToastError _ => true
                                 | _ => false
                                 end) (events r)).

End PushHook.

(** ** The service worker ([sw-push.js]) *)

Module ServiceWorker.

(** The JavaScript values a parsed payload can hold in its properties:
    strings, but also numbers, booleans, [null], arrays and objects.  The
    listener only tests their truthiness and passes them on, so they are
    kept abstract: a type of values with its truthiness, with the strings,
    the [data] objects of the edge function and the empty object [{}] among
    them. *)
Record JsValues := mkJsValues {
  Value : Type;
  truthy_value : Value -> bool;
  of_string : string -> Value;
  of_data : Handler.Data -> Value;
  empty_object : Value
}.

(** What JavaScript says of those: a string is truthy exactly when it is
    not empty, an object always. *)
Definition lawful (J : JsValues) : Prop :=
  (forall s, truthy_value J (of_string J s) = negb (s =? ""))
  /\ (forall d, truthy_value J (of_data J d) = true)
  /\ truthy_value J (empty_object J) = true.

(** The object [event.data.json()] yields, read through the six properties
    the listener uses; an absent property is [None]. *)
Record Message (J : JsValues) := mkMessage {
  m_title : option (Value J);
  m_body : option (Value J);
  m_icon : option (Value J);
  m_badge : option (Value J);
  m_tag : option (Value J);
  m_data : option (Value J)
}.
Arguments mkMessage {J}.
Arguments m_title {J}.
Arguments m_body {J}.
Arguments m_icon {J}.
Arguments m_badge {J}.
Arguments m_tag {J}.
Arguments m_data {J}.

(** What [event.data.json()] does. *)
Inductive Parsed (J : JsValues) :=
| ParseThrows
| ParsedNull
| ParsedValue (m : Message J).
Arguments ParseThrows {J}.
Arguments ParsedNull {J}.
Arguments ParsedValue {J}.

(** [event.data]: absent, or a body with its text and its JSON reading. *)
Inductive EventData (J : JsValues) :=
| NoData
| SomeData (text : string) (parsed : Parsed J).
Arguments NoData {J}.
Arguments SomeData {J}.

(** The [options] object handed to [showNotification]. *)
Record Options (J : JsValues) := mkOptions {
  o_body : Value J;
  o_icon : Value J;
  o_badge : Value J;
  o_tag : Value J;
  o_data : Value J;
  o_vibrate : list nat
}.
Arguments mkOptions {J}.
Arguments o_body {J}.
Arguments o_icon {J}.
Arguments o_badge {J}.
Arguments o_tag {J}.
Arguments o_data {J}.
Arguments o_vibrate {J}.

Inductive PushOutcome (J : JsValues) :=
| Ignored
| Shown (title : Value J) (options : Options J)
| Uncaught.
Arguments Ignored {J}.
Arguments Shown {J}.
Arguments Uncaught {J}.

(** [a || b] on a property that may be absent. *)
Definition value_or {J : JsValues} (v : option (Value J)) (dflt : Value J) : Value J :=
  match v with
  | Some x => if truthy_value J x then x else dflt
  | None => dflt
  end.

Definition show {J : JsValues} (payload : Message J) : PushOutcome J :=
  Shown (value_or (m_title payload) (of_string J "LampaTrack"))
        {| o_body := value_or (m_body payload) (of_string J "");
           o_icon := value_or (m_icon payload) (of_string J "/pwa-192x192.png");
           o_badge := value_or (m_badge payload) (of_string J "/pwa-192x192.png");
           o_tag := value_or (m_tag payload) (of_string J "lampatrack-notification");
           o_data := value_or (m_data payload) (empty_object J);
           o_vibrate := [200; 100; 200] |}.

(** The ['push'] listener. *)
Definition on_push {J : JsValues} (data : EventData J) : PushOutcome J :=
  match data with
  | NoData => Ignored
  | SomeData text ParseThrows =>
      show {| m_title := Some (of_string J "LampaTrack");
              m_body := Some (of_string J text);
              m_icon := None; m_badge := None; m_tag := None; m_data := None |}
  | SomeData _ ParsedNull => Uncaught
  | SomeData _ (ParsedValue payload) => show payload
  end.

(** A window client, as the ['notificationclick'] listener reads it. *)
Record Client := mkClient {
  url : string;
  (** ['focus' in client] *)
  has_focus : bool
}.

Inductive ClickAction :=
| Focus (c : Client)
| OpenWindow (target : string)
| NoAction.

(** [s.includes('/')] *)
Fixpoint includes_slash (s : string) : bool :=
  match s with
  | EmptyString => false
  | String c rest => Ascii.eqb c "/"%char || includes_slash rest
  end.

(** The [for] loop over the client list, left at the first match. *)
Fixpoint focus_first (clientList : list Client) : option Client :=
  match clientList with
  | [] => None
  | client :: rest =>
      if includes_slash (url client) && has_focus client
      then Some client
      else focus_first rest
  end.

(** The ['notificationclick'] listener, after [event.notification.close()];
    [openWindow] tells whether [self.clients.openWindow] exists. *)
Definition on_notificationclick (clientList : list Client) (openWindow : bool) : ClickAction :=
  match focus_first clientList with
  | Some client => Focus client
  | None => if openWindow then OpenWindow "/" else NoAction
  end.


(** A small instance: strings, [data] objects, [null], [[]] and [{}]. *)
Inductive Js :=
| JsString (s : string)
| JsData (d : Handler.Data)
| JsNull
| JsEmptyArray
| JsEmptyObject.

Definition js : JsValues :=
  {| Value := Js;
     truthy_value := fun v => match v with
                              | JsString s => negb (s =? "")
                              | JsNull => false
                              | _ => true
                              end;
     of_string := JsString;
     of_data := JsData;
     empty_object := JsEmptyObject |}.

(** A payload whose title is [[]], whose icon is [null] and whose tag is
    empty, and the options it is shown with. *)
Definition odd_message : Message js :=
  @mkMessage js (Some JsEmptyArray) None (Some JsNull) None (Some (JsString "")) None.

Definition odd_options : Options js :=
  @mkOptions js (JsString "") (JsString "/pwa-192x192.png") (JsString "/pwa-192x192.png")
             (JsString "lampatrack-notification") JsEmptyObject [200; 100; 200].


End ServiceWorker.

(** ** More vocabulary for the statements *)

Module Outcomes.

Import WebPush Handler Dispatch.

(** A rejection that is not "gone" or "not found". *)
Definition is_transient (r : SendResult) : bool :=
  negb (is_resolved r) && negb (is_gone r).

(** The same world, with another answer to the delete. *)
Definition with_delete_error (e : option string) (w : World) : World :=
  {| table := table w; select_error := select_error w;
     delete_error := e; transport := transport w;
     createClient := createClient w; setVapidDetails := setVapidDetails w |}.

(** The same world, on another table. *)
Definition with_table (t : Store.Table) (w : World) : World :=
  {| table := t; select_error := select_error w;
     delete_error := delete_error w; transport := transport w;
     createClient := createClient w; setVapidDetails := setVapidDetails w |}.

(** The rows of a batch whose own attempt was not rejected with 410 or
    404. *)
Definition survivors (w : World) (req : Request) : list Store.Row :=
  map snd (filter (fun a => negb (is_gone (result_of w (payload_of req) a))) (batch w req)).

Definition is_preflight (req : Request) : bool := method req =? "OPTIONS".

End Outcomes.

(** ** Concrete inputs used by the witnesses and counterexamples *)

Module Examples.

Import WebPush Handler.

(** A deployment with well-formed keys: a 65-byte public key and a 32-byte
    private key in URL-safe base64. *)
Definition env0 : Env :=
  {| SUPABASE_URL := "https://project.supabase.co";
     SUPABASE_SERVICE_ROLE_KEY := "service-role-key";
     VAPID_PUBLIC_KEY :=
       Some "BEkNKqoY4CBrp2jpHEdcG98BSk5IqizxXPhrI1IbOSZiOiEHTXcZka2cKLbxvxr8LZ-c-dr47O73g0a--tAeu7o";
     VAPID_PRIVATE_KEY := Some "Xq3mT0yVb7cK1uJ9dR2sWfA4hLzG6nEoP8iYtM5xCvQ";
     VAPID_SUBJECT := None |}.



(** The libraries' checks, as far as the inputs used here need them:
    [createClient] wants a URL and a key, [setVapidDetails] a [mailto:] or
    [https:] subject and keys of the right length. *)
Definition createClient_checks (url key : string) : option string :=
  if url =? "" then Some "Error: supabaseUrl is required."
  else if key =? "" then Some "Error: supabaseKey is required."
  else None.

Definition setVapidDetails_checks (subject publicKey privateKey : string) : option string :=
  if negb (String.prefix "mailto:" subject || String.prefix "https://" subject)
  then Some "Error: Vapid subject is not a valid URL."
  else if negb (String.length publicKey =? 87)%nat
  then Some "Error: Vapid public key should be 65 bytes long when decoded."
  else if negb (String.length privateKey =? 43)%nat
  then Some "Error: Vapid private key should be 32 bytes long when decoded."
  else None.

Definition env_no_vapid : Env :=
  {| SUPABASE_URL := "https://project.supabase.co";
     SUPABASE_SERVICE_ROLE_KEY := "service-role-key";
     VAPID_PUBLIC_KEY := None;
     VAPID_PRIVATE_KEY := Some "private-key";
     VAPID_SUBJECT := None |}.

Definition post (sid uid st : option string) : Request :=
  {| method := "POST";
     json := Parsed {| signalement_id := sid; user_id := uid; new_status := st |} |}.

Definition req_approved : Request := post (Some "42") (Some "u1") (Some "approved").
Definition req_pending : Request := post (Some "42") (Some "u1") (Some "pending").
Definition req_no_status : Request := post (Some "42") (Some "u1") None.


Definition row (i u e : string) : Store.Row :=
  {| Store.id := i; Store.user_id := u; Store.endpoint := e;
     Store.p256dh := "p-" ++ i; Store.auth := "a-" ++ i; Store.created_at := 0 |}.

Definition row1 := row "1" "u1" "https://push.example/e1".
Definition row2 := row "2" "u1" "https://push.example/e2".
Definition row3 := row "3" "u1" "https://push.example/e3".
Definition row1_again := row "4" "u1" "https://push.example/e1".
Definition row_other := row "5" "u2" "https://push.example/e9".

Definition gone : PushError := {| statusCode := Some 410%Z; message := "Received unexpected response code" |}.
Definition socket_timeout : PushError := {| statusCode := None; message := "Socket timeout" |}.

Definition always (r : SendResult) : nat -> PushSubscription -> Payload -> SendResult :=
  fun _ _ _ => r.

(** delivered, "gone", timeout, in call order *)
Definition by_position : nat -> PushSubscription -> Payload -> SendResult :=
  fun n _ _ =>
    match n with
    | 0 => Resolved
    | 1 => Rejected gone
    | _ => Rejected socket_timeout
    end.

Definition world (t : Store.Table) (tr : nat -> PushSubscription -> Payload -> SendResult) : World :=
  {| table := t; select_error := None; delete_error := None; transport := tr;
     createClient := createClient_checks; setVapidDetails := setVapidDetails_checks |}.

Definition w_one : World := world [row1; row_other] (always Resolved).
Definition w_two : World := world [row1; row2; row_other] (always Resolved).
Definition w_three : World := world [row1; row2; row3; row_other] by_position.
Definition w_duplicate : World := world [row1; row1_again] (always (Rejected gone)).
Definition w_none : World := world [row_other] (always Resolved).
Definition w_lookup_fails : World :=
  {| table := [row1]; select_error := Some "connection refused";
     delete_error := None; transport := always Resolved;
     createClient := createClient_checks; setVapidDetails := setVapidDetails_checks |}.

Definition run_pending : Outcome := handler env0 w_one req_pending.
Definition run_two : Outcome := handler env0 w_two req_approved.
Definition run_three : Outcome := handler env0 w_three req_approved.
Definition run_duplicate : Outcome := handler env0 w_duplicate req_approved.

Definition browser_sub (e p a : string) : Hook.SubJson :=
  {| Hook.endpoint := e; Hook.keys := {| Hook.p256dh := p; Hook.auth := a |} |}.

End Examples.

(** ** Vocabulary and inputs for the hook's statements *)

Module HookOutcomes.

Import PushHook.

(** The same browser, with another answer to the store delete. *)
Definition with_delete_error (e : option string) (b : Browser) : Browser :=
  {| sw_ready := sw_ready b; requestPermission := requestPermission b;
     atob := atob b; pushManager_subscribe := pushManager_subscribe b;
     getSubscription := getSubscription b; sub_unsubscribe := sub_unsubscribe b;
     upsert_error := upsert_error b; delete_error := e;
     fresh_id := fresh_id b; now := now b |}.

(** The transport-side view of a browser subscription. *)
Definition target (subJson : Hook.SubJson) : WebPush.PushSubscription :=
  {| WebPush.endpoint := Hook.endpoint subJson;
     WebPush.keys := {| WebPush.p256dh := Hook.p256dh (Hook.keys subJson);
                        WebPush.auth := Hook.auth (Hook.keys subJson) |} |}.

Definition idle : State :=
  {| isSupported := true; permission := "default"; isSubscribed := false; loading := false |}.

Definition subscribed : State :=
  {| isSupported := true; permission := "granted"; isSubscribed := true; loading := false |}.

(** A browser that grants everything, for the user's endpoint [e7]. *)
Definition willing : Browser :=
  {| sw_ready := Fulfilled tt;
     requestPermission := Fulfilled "granted";
     atob := fun _ => Some "raw-key";
     pushManager_subscribe :=
       fun _ => Fulfilled {| Hook.endpoint := "https://push.example/e7";
                             Hook.keys := {| Hook.p256dh := "p-7"; Hook.auth := "a-7" |} |};
     getSubscription := Fulfilled (Some "https://push.example/e7");
     sub_unsubscribe := Fulfilled true;
     upsert_error := None;
     delete_error := None;
     fresh_id := "7";
     now := 30 |}.

(** The same browser, with the permission prompt dismissed. *)
Definition refusing : Browser :=
  {| sw_ready := Fulfilled tt;
     requestPermission := Fulfilled "denied";
     atob := atob willing;
     pushManager_subscribe := pushManager_subscribe willing;
     getSubscription := Fulfilled None;
     sub_unsubscribe := Fulfilled true;
     upsert_error := None;
     delete_error := None;
     fresh_id := "7";
     now := 30 |}.

Definition world_after (t : Store.Table) : Handler.World :=
  {| Handler.table := t; Handler.select_error := None; Handler.delete_error := None;
     Handler.transport := fun _ _ _ => WebPush.Resolved;
     Handler.createClient := Examples.createClient_checks;
     Handler.setVapidDetails := Examples.setVapidDetails_checks |}.

End HookOutcomes.

(** * Properties *)

Import WebPush Handler Dispatch.

(** ** The delivery loop *)

Lemma attempts_from_cons n sub subs :
  attempts_from n (sub :: subs) = (n, sub) :: attempts_from (S n) subs.
Proof. reflexivity. Qed.

Lemma attempts_from_snd subs : forall n, map snd (attempts_from n subs) = subs.
Proof.
  induction subs as [|s subs IH]; intro n; [reflexivity|].
  rewrite attempts_from_cons. simpl. now rewrite IH.
Qed.

Lemma attempts_from_length subs n : List.length (attempts_from n subs) = List.length subs.
Proof.
  rewrite <- (attempts_from_snd subs n) at 2. now rewrite length_map.
Qed.

(** The state one iteration produces, by the way its call settles. *)
Lemma attempt_eq w payload st sub :
  attempt w payload st sub =
  let a := (calls st, sub) in
  let r := result_of w payload a in
  {| sent := sent st + (if is_resolved r then 1 else 0);
     failedEndpoints := failedEndpoints st ++ (if is_gone r then [Store.endpoint sub] else []);
     calls := S (calls st);
     log := log st ++ attempt_events w payload a |}.
Proof.
  unfold attempt, attempt_events, result_of, pushSubscription_of. cbn [fst snd].
  destruct (transport w (calls st) _ payload) as [|e]; cbn [is_resolved is_gone].
  - rewrite app_nil_r, <- app_assoc, Nat.add_1_r. reflexivity.
  - destruct (status_is (statusCode e) 410 || status_is (statusCode e) 404);
      rewrite ?app_nil_r, <- app_assoc, Nat.add_0_r; reflexivity.
Qed.

(** The whole loop: counters, prune list and trace after the last
    iteration. *)
Lemma deliver_all_eq w payload subs : forall st,
  deliver_all w payload st subs =
  let batch := attempts_from (calls st) subs in
  {| sent := sent st + List.length (filter is_resolved (map (result_of w payload) batch));
     failedEndpoints :=
       failedEndpoints st
       ++ map (fun a => Store.endpoint (snd a))
              (filter (fun a => is_gone (result_of w payload a)) batch);
     calls := calls st + List.length subs;
     log := log st ++ flat_map (attempt_events w payload) batch |}.
Proof.
  induction subs as [|sub subs IH]; intro st.
  - destruct st. cbn. now rewrite !Nat.add_0_r, !app_nil_r.
  - unfold deliver_all in *. cbn [fold_left]. rewrite IH, attempt_eq.
    cbn zeta. cbn [sent failedEndpoints calls log].
    rewrite attempts_from_cons. cbn [map filter flat_map List.length].
    destruct (is_resolved (result_of w payload (calls st, sub)));
      destruct (is_gone (result_of w payload (calls st, sub)));
      cbn [List.length map app]; rewrite <- ?app_assoc; cbn [app];
      f_equal; lia.
Qed.

(** ** The shape of the handler's runs *)

Lemma valid_inv req :
  valid req = true ->
  (method req =? "OPTIONS") = false
  /\ json req = Parsed (fields req)
  /\ truthy (signalement_id (fields req)) = true
  /\ truthy (user_id (fields req)) = true
  /\ truthy (new_status (fields req)) = true.
Proof.
  unfold valid, fields. destruct (json req) as [err|f].
  - rewrite andb_false_r. discriminate.
  - rewrite !andb_true_iff, negb_true_iff. tauto.
Qed.

Lemma configured_inv env :
  configured env = true ->
  truthy (VAPID_PUBLIC_KEY env) = true /\ truthy (VAPID_PRIVATE_KEY env) = true.
Proof. unfold configured. now rewrite andb_true_iff. Qed.

Lemma accepted_inv env w :
  accepted env w = true ->
  createClient w (SUPABASE_URL env) (SUPABASE_SERVICE_ROLE_KEY env) = None
  /\ setVapidDetails w (js_or (VAPID_SUBJECT env) "mailto:admin@lampatrack.app")
                     (str (VAPID_PUBLIC_KEY env)) (str (VAPID_PRIVATE_KEY env)) = None.
Proof.
  unfold accepted, client_created, vapid_accepted. rewrite andb_true_iff.
  destruct (createClient w _ _), (setVapidDetails w _ _ _); cbn; intros [? ?];
    (discriminate || now split).
Qed.

(** What the outer [catch] leaves in that case: a 500, nothing sent,
    nothing looked up or deleted, the table as it was. *)
Lemma thrown_projections env w req o :
  thrown_from env w req o ->
  status (response o) = 500%Z
  /\ headers (response o) = jsonHeaders
  /\ (exists err, body (response o) = BError err)
  /\ sends (trace o) = []
  /\ payloads (trace o) = []
  /\ send_options (trace o) = []
  /\ issue_settle (trace o) = []
  /\ selects (trace o) = []
  /\ deletes (trace o) = []
  /\ table_after o = table w.
Proof.
  intros (err & [-> | ->]); cbn; repeat split; exists err; reflexivity.
Qed.

(** A valid request in a deployment whose URL, key or VAPID details a
    library rejects ends in the outer [catch]. *)
Lemma handler_not_accepted env w req :
  valid req = true -> configured env = true -> accepted env w = false ->
  thrown_from env w req (handler env w req).
Proof.
  intros Hv Hc Ha.
  destruct (valid_inv req Hv) as (Hm & Hj & H1 & H2 & H3).
  destruct (configured_inv env Hc) as (Hp & Hq).
  unfold handler, thrown_from. rewrite Hm.
  unfold accepted, client_created, vapid_accepted in Ha.
  destruct (createClient w _ _) as [err|]; [exists err; now left|].
  rewrite Hj, H1, H2, H3, Hp, Hq. cbn [negb orb]. cbn zeta.
  destruct (setVapidDetails w _ _ _) as [err|]; [exists err; now right|].
  cbn in Ha. discriminate.
Qed.

(** Past the gates, the handler performs the lookup. *)
Lemma handler_past_gates env w req :
  valid req = true -> configured env = true -> accepted env w = true ->
  handler env w req =
  let res := select w (str (user_id (fields req))) in
  if is_some (sel_error res) || negb (is_some (sel_data res))
     || (List.length (rows (sel_data res)) =? 0)%nat
  then {| response := ok (BMessage 0 "No subscriptions found");
          trace := queried env req;
          table_after := table w |}
  else
    let st := deliver_all w (payload_of req)
                {| sent := 0; failedEndpoints := []; calls := 0; log := queried env req |}
                (rows (sel_data res)) in
    if (0 <? List.length (failedEndpoints st))%nat
    then {| response := ok (BResult (sent st) (List.length (failedEndpoints st)));
            trace := log st ++ [EvDelete (failedEndpoints st)];
            table_after := delete w (failedEndpoints st) |}
    else {| response := ok (BResult (sent st) (List.length (failedEndpoints st)));
            trace := log st;
            table_after := table w |}.
Proof.
  intros Hv Hc Ha.
  destruct (valid_inv req Hv) as (Hm & Hj & H1 & H2 & H3).
  destruct (configured_inv env Hc) as (Hp & Hq).
  destruct (accepted_inv env w Ha) as (Hcc & Hsv).
  unfold handler. rewrite Hm, Hcc, Hj, H1, H2, H3, Hp, Hq. cbn [negb orb]. cbn zeta.
  rewrite Hsv. reflexivity.
Qed.

(** A failed lookup or an empty result ends the request there. *)
Lemma handler_no_subscriptions env w req :
  valid req = true -> configured env = true -> accepted env w = true ->
  select_error w <> None \/ subscriptions_of w req = [] ->
  handler env w req =
  {| response := ok (BMessage 0 "No subscriptions found");
     trace := queried env req;
     table_after := table w |}.
Proof.
  intros Hv Hc Ha H. rewrite (handler_past_gates env w req Hv Hc Ha).
  unfold select, subscriptions_of in *. cbn zeta.
  destruct (select_error w) as [e|]; [reflexivity|].
  destruct H as [H|H]; [congruence|]. cbn [sel_error sel_data is_some rows].
  now rewrite H.
Qed.

(** A non-empty result is dispatched: the run in terms of the batch. *)
Lemma handler_batch env w req :
  valid req = true -> configured env = true -> accepted env w = true ->
  select_error w = None -> subscriptions_of w req <> [] ->
  handler env w req =
  let pruned := gone_endpoints w req in
  let tr := queried env req ++ flat_map (attempt_events w (payload_of req)) (batch w req) in
  {| response := ok (BResult (List.length (filter is_resolved (results w req)))
                             (List.length pruned));
     trace := match pruned with [] => tr | _ => tr ++ [EvDelete pruned] end;
     table_after := match pruned with [] => table w | _ => delete w pruned end |}.
Proof.
  intros Hv Hc Ha He Hs. rewrite (handler_past_gates env w req Hv Hc Ha).
  unfold select. rewrite He. cbn zeta. cbn [sel_error sel_data is_some rows negb orb].
  fold (subscriptions_of w req).
  destruct (subscriptions_of w req) as [|s l] eqn:E; [congruence|].
  cbn [List.length Nat.eqb]. rewrite <- E. rewrite deliver_all_eq.
  cbn zeta. cbn [sent failedEndpoints calls log app Nat.add].
  fold (batch w req). fold (results w req). fold (gone_endpoints w req).
  destruct (gone_endpoints w req); reflexivity.
Qed.

(** ** Projections of the batch's trace *)

Ltac batch_projection b :=
  induction b as [|a b IH]; [reflexivity|];
  cbn [flat_map map]; unfold attempt_events at 1;
  match goal with
  | |- context [result_of ?w ?p a] => destruct (result_of w p a)
  end; cbn [app flat_map]; rewrite IH; reflexivity.

Lemma sends_app tr1 tr2 : sends (tr1 ++ tr2) = sends tr1 ++ sends tr2.
Proof. apply flat_map_app. Qed.

Lemma deletes_app tr1 tr2 : deletes (tr1 ++ tr2) = deletes tr1 ++ deletes tr2.
Proof. apply flat_map_app. Qed.

Lemma sends_batch w p b :
  sends (flat_map (attempt_events w p) b) = map (fun a => pushSubscription_of (snd a)) b.
Proof. unfold sends. batch_projection b. Qed.

Lemma payloads_batch w p b :
  payloads (flat_map (attempt_events w p) b) = map (fun _ => p) b.
Proof. unfold payloads. batch_projection b. Qed.

Lemma send_options_batch w p b :
  send_options (flat_map (attempt_events w p) b) = map (fun _ => None) b.
Proof. unfold send_options. batch_projection b. Qed.

Lemma deletes_batch w p b : deletes (flat_map (attempt_events w p) b) = [].
Proof. unfold deletes. batch_projection b. Qed.

Lemma issue_settle_batch w p b :
  issue_settle (flat_map (attempt_events w p) b) = flat_map (fun _ => [true; false]) b.
Proof. unfold issue_settle. batch_projection b. Qed.

Lemma batch_rows w req : map snd (batch w req) = subscriptions_of w req.
Proof. apply attempts_from_snd. Qed.

(** ** Validation and configuration gates *)




(** ** No subscriptions, and failed lookups *)




(** C10. When the lookup of a valid request, in a deployment whose VAPID
    keys are present and whose configuration the libraries accept, comes
    back with an error, the answer is 200 with
    [{ sent: 0, message: "No subscriptions found" }]: the very response of a
    request whose user has no subscription.  Nothing is sent or deleted. *)
Theorem lookup_error_reads_as_no_subscriptions env w req e :
  valid req = true -> configured env = true -> accepted env w = true ->
  select_error w = Some e ->
  response (handler env w req) = ok (BMessage 0 "No subscriptions found")
  /\ status (response (handler env w req)) = 200%Z
  /\ sends (trace (handler env w req)) = []
  /\ deletes (trace (handler env w req)) = []
  /\ table_after (handler env w req) = table w
  /\ forall w', accepted env w' = true ->
                select_error w' = None -> subscriptions_of w' req = [] ->
                response (handler env w req) = response (handler env w' req).
Proof.
  intros Hv Hc Ha He.
  assert (Hne : select_error w <> None) by congruence.
  rewrite (handler_no_subscriptions env w req Hv Hc Ha (or_introl Hne)).
  repeat split; try reflexivity.
  intros w' Ha' _ Hs.
  now rewrite (handler_no_subscriptions env w' req Hv Hc Ha' (or_intror Hs)).
Qed.

Lemma lookup_error_reads_as_no_subscriptions_witness :
  response (handler Examples.env0 Examples.w_lookup_fails Examples.req_approved)
  = ok (BMessage 0 "No subscriptions found")
  /\ status (response (handler Examples.env0 Examples.w_lookup_fails Examples.req_approved)) = 200%Z
  /\ sends (trace (handler Examples.env0 Examples.w_lookup_fails Examples.req_approved)) = []
  /\ deletes (trace (handler Examples.env0 Examples.w_lookup_fails Examples.req_approved)) = []
  /\ table_after (handler Examples.env0 Examples.w_lookup_fails Examples.req_approved)
     = table Examples.w_lookup_fails
  /\ response (handler Examples.env0 Examples.w_lookup_fails Examples.req_approved)
     = response (handler Examples.env0 Examples.w_none Examples.req_approved).
Proof.
  destruct (lookup_error_reads_as_no_subscriptions Examples.env0 Examples.w_lookup_fails
              Examples.req_approved "connection refused")
    as (H1 & H2 & H3 & H4 & H5 & H6); try reflexivity.
  split; [exact H1|]. split; [exact H2|]. split; [exact H3|]. split; [exact H4|].
  split; [exact H5|]. apply H6; reflexivity.
Defined.

(** ** Classification of one delivery attempt *)

Lemma status_is_true code n : status_is code n = true <-> code = Some n.
Proof.
  destruct code as [c|]; cbn.
  - rewrite Z.eqb_eq. split; congruence.
  - split; discriminate.
Qed.

Lemma is_gone_rejected e : is_gone (Rejected e) = true <-> gone_or_not_found e.
Proof.
  unfold gone_or_not_found. cbn. now rewrite orb_true_iff, !status_is_true.
Qed.

Lemma classified_delivered r : classified r delivered <-> is_resolved r = true.
Proof.
  split.
  - now inversion 1.
  - destruct r; [constructor | discriminate].
Qed.

Lemma classified_permanent r : classified r permanent_failure <-> is_gone r = true.
Proof.
  split.
  - inversion 1; subst. now apply is_gone_rejected.
  - destruct r as [|e]; [discriminate|]. intro H. constructor. now apply is_gone_rejected.
Qed.

Lemma classified_transient r :
  classified r transient_failure <-> is_resolved r = false /\ is_gone r = false.
Proof.
  split.
  - inversion 1; subst. split; [reflexivity|].
    destruct (is_gone (Rejected e)) eqn:E; [|reflexivity].
    apply is_gone_rejected in E. contradiction.
  - destruct r as [|e]; intros [H1 H2]; [discriminate|].
    constructor. intro G. apply is_gone_rejected in G. congruence.
Qed.

Lemma snoc_neq {A} (l : list A) x : l ++ [x] <> l.
Proof.
  intro H. apply (f_equal (@List.length A)) in H.
  rewrite length_app in H. cbn in H. lia.
Qed.

(** C2. For every delivery attempt (one iteration of the loop, in any loop
    state, for any subscription row, however the transport answers): the
    attempt is classified permanent exactly when its endpoint is appended
    to the prune list, which happens exactly when the call was rejected with
    status code 410 or 404; it is classified delivered exactly when [sent]
    is incremented; it is classified transient exactly when neither
    happens.  Whatever the outcome, exactly one [sendNotification] call is
    made for the row: nothing is retried. *)
Theorem attempt_classification w payload st sub :
  let r := result_of w payload (calls st, sub) in
  let st' := attempt w payload st sub in
  (classified r permanent_failure <->
   failedEndpoints st' = failedEndpoints st ++ [Store.endpoint sub])
  /\ (classified r permanent_failure <->
      exists e, r = Rejected e
                /\ (statusCode e = Some 410%Z \/ statusCode e = Some 404%Z))
  /\ (classified r delivered <-> sent st' = S (sent st))
  /\ (classified r delivered <-> r = Resolved)
  /\ (classified r transient_failure <->
      sent st' = sent st /\ failedEndpoints st' = failedEndpoints st)
  /\ sends (log st') = sends (log st) ++ [pushSubscription_of sub]
  /\ calls st' = S (calls st).
Proof.
  cbn zeta. rewrite attempt_eq. cbn zeta. cbn [sent failedEndpoints calls log].
  set (r := result_of w payload (calls st, sub)).
  rewrite classified_permanent, classified_delivered, classified_transient.
  repeat split.
  - intros ->. reflexivity.
  - destruct (is_gone r); [reflexivity|]. rewrite app_nil_r. intro H.
    symmetry in H. now apply snoc_neq in H.
  - destruct r as [|e]; [discriminate|]. intro H. exists e. split; [reflexivity|].
    now apply is_gone_rejected.
  - intros (e & -> & H). now apply is_gone_rejected.
  - intros ->. lia.
  - destruct (is_resolved r); [reflexivity|]. lia.
  - destruct r; [reflexivity | discriminate].
  - intros ->. reflexivity.
  - destruct H as [-> _]. lia.
  - destruct H as [_ ->]. now rewrite app_nil_r.
  - destruct H as [H _]. destruct (is_resolved r); [lia | reflexivity].
  - destruct H as [_ H]. destruct (is_gone r); [|reflexivity].
    now apply snoc_neq in H.
  - rewrite sends_app. f_equal. unfold attempt_events. cbn [snd].
    fold r. destruct r; reflexivity.
Qed.

(** ** The trace of a dispatched batch, projected *)

Lemma map_batch {B} (g : Store.Row -> B) w req :
  map (fun a => g (snd a)) (batch w req) = map g (subscriptions_of w req).
Proof. now rewrite <- (map_map snd g), batch_rows. Qed.

Lemma flat_map_const_snd {C} (c : list C) (b : list (nat * Store.Row)) :
  flat_map (fun _ => c) b = flat_map (fun _ => c) (map snd b).
Proof. induction b as [|a b IH]; cbn; [reflexivity | now rewrite IH]. Qed.

Lemma handler_batch_projections env w req :
  valid req = true -> configured env = true -> accepted env w = true ->
  select_error w = None -> subscriptions_of w req <> [] ->
  let o := handler env w req in
  sends (trace o) = map pushSubscription_of (subscriptions_of w req)
  /\ payloads (trace o) = map (fun _ => payload_of req) (subscriptions_of w req)
  /\ send_options (trace o) = map (fun _ => None) (subscriptions_of w req)
  /\ issue_settle (trace o) = flat_map (fun _ => [true; false]) (subscriptions_of w req)
  /\ deletes (trace o) = match gone_endpoints w req with [] => [] | l => [l] end
  /\ selects (trace o) = [str (user_id (fields req))].
Proof.
  intros Hv Hc Ha He Hs. cbn zeta. rewrite (handler_batch env w req Hv Hc Ha He Hs).
  cbn zeta. cbn [trace].
  assert (P : forall tail,
    (tail = [] \/ exists l, tail = [EvDelete l]) ->
    let tr := (queried env req ++ flat_map (attempt_events w (payload_of req)) (batch w req))
              ++ tail in
    sends tr = map pushSubscription_of (subscriptions_of w req)
    /\ payloads tr = map (fun _ => payload_of req) (subscriptions_of w req)
    /\ send_options tr = map (fun _ => None) (subscriptions_of w req)
    /\ issue_settle tr = flat_map (fun _ => [true; false]) (subscriptions_of w req)
    /\ deletes tr = deletes tail
    /\ selects tr = [str (user_id (fields req))]).
  { intros tail Ht. cbn zeta.
    assert (Hsel : selects (flat_map (attempt_events w (payload_of req)) (batch w req)) = []).
    { unfold selects. generalize (batch w req) as b. intro b. batch_projection b. }
    unfold sends at 1, payloads at 1, send_options at 1, issue_settle at 1,
      deletes at 1, selects at 1.
    rewrite !flat_map_app.
    fold (sends (flat_map (attempt_events w (payload_of req)) (batch w req))).
    fold (payloads (flat_map (attempt_events w (payload_of req)) (batch w req))).
    fold (send_options (flat_map (attempt_events w (payload_of req)) (batch w req))).
    fold (issue_settle (flat_map (attempt_events w (payload_of req)) (batch w req))).
    fold (deletes (flat_map (attempt_events w (payload_of req)) (batch w req))).
    fold (selects (flat_map (attempt_events w (payload_of req)) (batch w req))).
    rewrite sends_batch, payloads_batch, send_options_batch, issue_settle_batch,
      deletes_batch, Hsel.
    rewrite (map_batch pushSubscription_of), (map_batch (fun _ => payload_of req)),
      (map_batch (fun _ => @None RequestOptions)).
    rewrite flat_map_const_snd, batch_rows.
    destruct Ht as [->|[l ->]]; cbn; rewrite ?app_nil_r; repeat split; reflexivity. }
  destruct (gone_endpoints w req) as [|e l] eqn:G.
  - specialize (P [] (or_introl eq_refl)). cbn zeta in P. rewrite app_nil_r in P. exact P.
  - exact (P [EvDelete (e :: l)] (or_intror (ex_intro _ _ eq_refl))).
Qed.

(** ** The uniqueness constraint, seen from a user's subscription list *)

Lemma NoDup_map_filter {A B} (g : A -> B) (P : A -> bool) (l : list A) :
  NoDup (map g l) -> NoDup (map g (filter P l)).
Proof.
  induction l as [|a l IH]; cbn; intro H; [constructor|].
  inversion H as [|x l' Hn Hd]; subst.
  destruct (P a); cbn; [|now apply IH].
  constructor; [|now apply IH].
  intro Hin. apply Hn. apply in_map_iff in Hin. destruct Hin as (b & Hb & Hin).
  apply filter_In in Hin. apply in_map_iff. exists b. tauto.
Qed.

Lemma unique_select_NoDup uid t :
  Store.unique_user_endpoint t = true ->
  NoDup (map Store.endpoint (Store.select_by_user uid t)).
Proof.
  unfold Store.select_by_user.
  induction t as [|r t IH]; cbn; intro H; [constructor|].
  apply andb_true_iff in H. destruct H as [Hr Ht].
  destruct (Store.user_id r =? uid) eqn:Eu; [|now apply IH].
  cbn. constructor; [|now apply IH].
  intro Hin. apply in_map_iff in Hin. destruct Hin as (r' & He & Hin).
  apply filter_In in Hin. destruct Hin as [Hin Hu].
  apply negb_true_iff in Hr.
  assert (X : existsb (Store.same_key r) t = true).
  { apply existsb_exists. exists r'. split; [exact Hin|].
    unfold Store.same_key. apply String.eqb_eq in Eu, Hu.
    rewrite Eu, Hu, He, !String.eqb_refl. reflexivity. }
  congruence.
Qed.

Lemma unique_gone_endpoints_NoDup w req :
  Store.unique_user_endpoint (table w) = true -> NoDup (gone_endpoints w req).
Proof.
  intro H. unfold gone_endpoints.
  apply (NoDup_map_filter (fun a => Store.endpoint (snd a))).
  rewrite (map_batch Store.endpoint). now apply unique_select_NoDup.
Qed.

(** ** Facts shared by the statements below *)

(** A valid, configured request is always answered 200. *)
Lemma dispatch_status env w req :
  valid req = true -> configured env = true -> accepted env w = true ->
  status (response (handler env w req)) = 200%Z.
Proof.
  intros Hv Hc Ha. rewrite (handler_past_gates env w req Hv Hc Ha). cbn zeta.
  repeat match goal with |- context [if ?b then _ else _] => destruct b end; reflexivity.
Qed.

(** When the lookup succeeds, the calls made are exactly one per
    subscription, in order. *)
Lemma dispatch_sends env w req :
  valid req = true -> configured env = true -> accepted env w = true ->
  select_error w = None ->
  sends (trace (handler env w req)) = map pushSubscription_of (subscriptions_of w req).
Proof.
  intros Hv Hc Ha He.
  destruct (subscriptions_of w req) as [|s l] eqn:Hs.
  - rewrite (handler_no_subscriptions env w req Hv Hc Ha (or_intror Hs)). reflexivity.
  - assert (Hne : subscriptions_of w req <> []) by (rewrite Hs; discriminate).
    destruct (handler_batch_projections env w req Hv Hc Ha He Hne) as (P1 & _).
    now rewrite Hs in P1.
Qed.

(** A rejection with a status code other than 410 and 404, or with none,
    changes neither counter nor prune list. *)
Lemma attempt_rejected_otherwise w payload st sub e :
  result_of w payload (calls st, sub) = Rejected e ->
  statusCode e <> Some 410%Z -> statusCode e <> Some 404%Z ->
  classified (Rejected e) transient_failure
  /\ sent (attempt w payload st sub) = sent st
  /\ failedEndpoints (attempt w payload st sub) = failedEndpoints st.
Proof.
  intros Hr H1 H2.
  assert (G : is_gone (Rejected e) = false).
  { destruct (is_gone (Rejected e)) eqn:E; [|reflexivity].
    apply is_gone_rejected in E. destruct E; contradiction. }
  split.
  - apply classified_transient. now split.
  - rewrite attempt_eq. cbn zeta. cbn [sent failedEndpoints]. rewrite Hr, G.
    cbn [is_resolved]. now rewrite Nat.add_0_r, app_nil_r.
Qed.

(** Rows whose endpoint is not in the prune list are still in the table
    after the request. *)
Lemma rows_not_gone_are_kept env w req row :
  valid req = true -> configured env = true -> accepted env w = true ->
  select_error w = None -> subscriptions_of w req <> [] ->
  In row (table w) -> ~ In (Store.endpoint row) (gone_endpoints w req) ->
  In row (table_after (handler env w req)).
Proof.
  intros Hv Hc Ha He Hs Hin Hn. rewrite (handler_batch env w req Hv Hc Ha He Hs).
  cbn zeta. cbn [table_after].
  destruct (gone_endpoints w req) as [|g gs] eqn:G; [exact Hin|].
  unfold delete. destruct (delete_error w); [exact Hin|].
  unfold Store.delete_in_endpoint. apply filter_In. split; [exact Hin|].
  apply negb_true_iff. destruct (Store.mem (Store.endpoint row) (g :: gs)) eqn:M; [|reflexivity].
  unfold Store.mem in M. apply existsb_exists in M. destruct M as (x & Hx & Heq).
  apply String.eqb_eq in Heq. subst x. contradiction.
Qed.

(** ** Failures stay inside their attempt *)

(** C3. For every table and every way the transport answers the
    successive calls, a valid request whose lookup succeeds, in a deployment
    whose VAPID keys are present and whose configuration the libraries
    accept, has one [sendNotification] call made for each of the user's
    subscriptions, in order, whichever of them fail; the handler answers 200,
    and, when there is at least one subscription, the body is the aggregate
    [{ sent, failed }] of the whole batch. *)
Theorem batch_survives_failures env w req :
  valid req = true -> configured env = true -> accepted env w = true ->
  select_error w = None ->
  sends (trace (handler env w req)) = map pushSubscription_of (subscriptions_of w req)
  /\ status (response (handler env w req)) = 200%Z
  /\ (subscriptions_of w req <> [] ->
      response (handler env w req)
      = ok (BResult (List.length (filter is_resolved (results w req)))
                    (List.length (gone_endpoints w req)))).
Proof.
  intros Hv Hc Ha He.
  split; [now apply dispatch_sends|]. split; [now apply dispatch_status|].
  intro Hne. now rewrite (handler_batch env w req Hv Hc Ha He Hne).
Qed.

Lemma batch_survives_failures_witness :
  sends (trace (handler Examples.env0 Examples.w_three Examples.req_approved))
  = map pushSubscription_of (subscriptions_of Examples.w_three Examples.req_approved)
  /\ status (response (handler Examples.env0 Examples.w_three Examples.req_approved)) = 200%Z
  /\ response (handler Examples.env0 Examples.w_three Examples.req_approved)
     = ok (BResult 1 1).
Proof.
  destruct (batch_survives_failures Examples.env0 Examples.w_three Examples.req_approved)
    as (H1 & H2 & H3); try reflexivity.
  split; [exact H1|]. split; [exact H2|].
  apply H3. vm_compute. discriminate.
Defined.

(** ** The aggregate *)




(** ** Status values other than ["approved"] *)

(** C1, as stated, fails: a request whose [new_status] is ["pending"] is
    not rejected.  It is answered 200 with [{ sent: 1, failed: 0 }] and the
    subscription is sent the "rejected" notification. *)
Lemma unknown_status_is_dispatched :
  valid Examples.req_pending = true
  /\ new_status (fields Examples.req_pending) = Some "pending"
  /\ response Examples.run_pending = ok (BResult 1 0)
  /\ map title (payloads (trace Examples.run_pending)) = ["❌ Signalement rejeté"]
  /\ ~ fails_closed Examples.run_pending.
Proof.
  repeat split; try reflexivity.
  intros [_ H]. vm_compute in H. discriminate.
Qed.

(** C1, amended.  The handler has no table of known statuses: it tests
    [new_status === "approved"] and treats every other value alike.  For
    every valid request whose [new_status] is not ["approved"], in a
    deployment whose VAPID keys are present and whose configuration the
    libraries accept, the answer is 200 (never an error), and every payload
    handed to the transport carries the "rejected" title and body (never
    blank), the tag ["signalement-" + signalement_id], and the given status
    in [data.status]; when the lookup succeeds, one such payload is sent per
    subscription. *)
Theorem status_other_than_approved_sends_rejection env w req :
  valid req = true -> configured env = true -> accepted env w = true ->
  (str (new_status (fields req)) =? "approved") = false ->
  status (response (handler env w req)) = 200%Z
  /\ (forall p, In p (payloads (trace (handler env w req))) ->
        title p = "❌ Signalement rejeté"
        /\ body_text p = "Votre signalement a été rejeté par l'administrateur."
        /\ tag p = ("signalement-" ++ str (signalement_id (fields req)))%string
        /\ data_status (data p) = str (new_status (fields req)))
  /\ (select_error w = None ->
      List.length (payloads (trace (handler env w req)))
      = List.length (subscriptions_of w req)).
Proof.
  intros Hv Hc Ha Hst.
  assert (Hnone : select_error w <> None \/ subscriptions_of w req = [] ->
                  status (response (handler env w req)) = 200%Z
                  /\ payloads (trace (handler env w req)) = []).
  { intro H. rewrite (handler_no_subscriptions env w req Hv Hc Ha H). split; reflexivity. }
  destruct (select_error w) as [e|] eqn:He.
  - destruct Hnone as [H1 H2]; [left; discriminate|].
    rewrite H2. repeat split; try exact H1; try contradiction. discriminate.
  - destruct (subscriptions_of w req) as [|s l] eqn:Hs.
    + destruct Hnone as [H1 H2]; [now right|].
      rewrite H2. repeat split; try exact H1; try contradiction.
    + assert (Hne : subscriptions_of w req <> []) by (rewrite Hs; discriminate).
      destruct (handler_batch_projections env w req Hv Hc Ha He Hne) as (_ & P & _).
      pose proof (dispatch_status env w req Hv Hc Ha) as S.
      rewrite P, Hs in *. split; [exact S|]. split.
      * intros p Hin. apply in_map_iff in Hin. destruct Hin as (x & <- & _).
        unfold payload_of, notificationPayload. rewrite Hst. cbn. repeat split.
      * intros _. now rewrite length_map.
Qed.

Lemma status_other_than_approved_sends_rejection_witness :
  status (response (handler Examples.env0 Examples.w_one Examples.req_pending)) = 200%Z
  /\ (forall p, In p (payloads (trace (handler Examples.env0 Examples.w_one Examples.req_pending))) ->
        title p = "❌ Signalement rejeté"
        /\ body_text p = "Votre signalement a été rejeté par l'administrateur."
        /\ tag p = ("signalement-" ++ str (signalement_id (fields Examples.req_pending)))%string
        /\ data_status (data p) = str (new_status (fields Examples.req_pending)))
  /\ (select_error Examples.w_one = None ->
      List.length (payloads (trace (handler Examples.env0 Examples.w_one Examples.req_pending)))
      = List.length (subscriptions_of Examples.w_one Examples.req_pending)).
Proof.
  apply (status_other_than_approved_sends_rejection
           Examples.env0 Examples.w_one Examples.req_pending); reflexivity.
Defined.

(** ** Duplicate endpoints *)

(** C4, as stated, fails: given two rows with the same endpoint, both
    rejected with 410, the handler calls the transport twice for that
    endpoint, hands the delete a list holding it twice, and reports
    [failed: 2]. *)
Lemma duplicate_endpoints_not_deduplicated :
  deletes (trace Examples.run_duplicate)
  = [["https://push.example/e1"; "https://push.example/e1"]]
  /\ map endpoint (sends (trace Examples.run_duplicate))
     = ["https://push.example/e1"; "https://push.example/e1"]
  /\ response Examples.run_duplicate = ok (BResult 0 2)
  /\ ~ (forall l, In l (deletes (trace Examples.run_duplicate)) -> NoDup l)
  /\ ~ NoDup (map endpoint (sends (trace Examples.run_duplicate))).
Proof.
  repeat split; try reflexivity.
  - intro H. specialize (H _ (or_introl eq_refl)).
    inversion H as [|x l Hn _]; subst. apply Hn. now left.
  - intro H. vm_compute in H.
    inversion H as [|x l Hn _]; subst. apply Hn. now left.
Qed.

(** C4, amended.  The handler does not deduplicate; it relies on the
    table's [UNIQUE(user_id, endpoint)] constraint.  For every valid,
    configured request whose lookup succeeds on a table satisfying the
    constraint, no endpoint is attempted twice, at most one delete call is
    issued, and its list holds no endpoint twice. *)
Theorem unique_store_single_attempt_single_prune env w req :
  Store.unique_user_endpoint (table w) = true ->
  valid req = true -> configured env = true -> select_error w = None ->
  NoDup (map endpoint (sends (trace (handler env w req))))
  /\ List.length (deletes (trace (handler env w req))) <= 1
  /\ (forall l, In l (deletes (trace (handler env w req))) ->
        NoDup l /\ incl l (map endpoint (sends (trace (handler env w req))))).
Proof.
  intros Hu Hv Hc He.
  destruct (accepted env w) eqn:Ha.
  - rewrite (dispatch_sends env w req Hv Hc Ha He).
    assert (E : map endpoint (map pushSubscription_of (subscriptions_of w req))
                = map Store.endpoint (subscriptions_of w req)).
    { rewrite map_map. reflexivity. }
    rewrite E. split; [now apply unique_select_NoDup|].
    destruct (subscriptions_of w req) as [|s l] eqn:Hs.
    + rewrite (handler_no_subscriptions env w req Hv Hc Ha (or_intror Hs)).
      cbn. split; [lia | contradiction].
    + assert (Hne : subscriptions_of w req <> []) by (rewrite Hs; discriminate).
      destruct (handler_batch_projections env w req Hv Hc Ha He Hne)
        as (_ & _ & _ & _ & D & _).
      rewrite D. pose proof (unique_gone_endpoints_NoDup w req Hu) as N.
      assert (I : incl (gone_endpoints w req) (map Store.endpoint (subscriptions_of w req))).
      { unfold gone_endpoints. rewrite <- (map_batch Store.endpoint).
        intros x Hx. apply in_map_iff in Hx. destruct Hx as (a & <- & Ha').
        apply filter_In in Ha'. apply in_map_iff. exists a. tauto. }
      rewrite Hs in I.
      destruct (gone_endpoints w req) as [|g gs]; cbn.
      * split; [lia | contradiction].
      * split; [lia|]. intros l' [<-|[]]. split; assumption.
  - destruct (thrown_projections env w req _ (handler_not_accepted env w req Hv Hc Ha))
      as (_ & _ & _ & S & _ & _ & _ & _ & D & _).
    rewrite S, D. cbn. split; [constructor|]. split; [lia | contradiction].
Qed.

Lemma unique_store_single_attempt_single_prune_witness :
  NoDup (map endpoint (sends (trace (handler Examples.env0 Examples.w_three Examples.req_approved))))
  /\ List.length (deletes (trace (handler Examples.env0 Examples.w_three Examples.req_approved))) <= 1
  /\ (forall l, In l (deletes (trace (handler Examples.env0 Examples.w_three Examples.req_approved))) ->
        NoDup l
        /\ incl l (map endpoint (sends (trace (handler Examples.env0 Examples.w_three
                                                       Examples.req_approved))))).
Proof.
  apply (unique_store_single_attempt_single_prune
           Examples.env0 Examples.w_three Examples.req_approved); reflexivity.
Defined.

(** ** Order of the attempts, and timeouts *)

(** C8, as stated, fails: with two subscriptions the second call is issued
    only after the first has settled, and neither call is given a timeout. *)
Lemma attempts_not_concurrent_no_timeout :
  issue_settle (trace Examples.run_two) = [true; false; true; false]
  /\ issued_concurrently (issue_settle (trace Examples.run_two)) = false
  /\ send_options (trace Examples.run_two) = [None; None]
  /\ forallb has_timeout (send_options (trace Examples.run_two)) = false.
Proof. repeat split. Qed.

Lemma issued_sequentially_pairs {A} (l : list A) :
  issued_sequentially (flat_map (fun _ => [true; false]) l) = true.
Proof. induction l as [|a l IH]; [reflexivity | exact IH]. Qed.

(** C8, amended.  The loop awaits each call before the next iteration: for
    every valid request whose lookup succeeds, in a deployment whose VAPID
    keys are present and whose configuration the libraries accept, the
    [sendNotification] calls are issued one per subscription, in subscription
    order, each issued only after the previous one has settled (so with two
    or more subscriptions they are not issued concurrently), and every call
    is made without options, hence without a timeout of its own.  An attempt
    whose call is rejected with an error whose status code is neither 410
    nor 404, in particular with one that carries no status code, as a
    timeout error does, is classified transient: it is neither counted as
    sent nor added to the prune list. *)
Theorem attempts_sequential_timeout_transient env w req :
  valid req = true -> configured env = true -> accepted env w = true ->
  select_error w = None ->
  sends (trace (handler env w req)) = map pushSubscription_of (subscriptions_of w req)
  /\ issued_sequentially (issue_settle (trace (handler env w req))) = true
  /\ (2 <= List.length (subscriptions_of w req) ->
      issued_concurrently (issue_settle (trace (handler env w req))) = false)
  /\ send_options (trace (handler env w req))
     = map (fun _ => None) (subscriptions_of w req)
  /\ (forall st sub e,
        result_of w (payload_of req) (calls st, sub) = Rejected e ->
        statusCode e <> Some 410%Z -> statusCode e <> Some 404%Z ->
        classified (Rejected e) transient_failure
        /\ sent (attempt w (payload_of req) st sub) = sent st
        /\ failedEndpoints (attempt w (payload_of req) st sub) = failedEndpoints st).
Proof.
  intros Hv Hc Ha He.
  split; [now apply dispatch_sends|].
  pose proof (attempt_rejected_otherwise w (payload_of req)) as T.
  destruct (subscriptions_of w req) as [|s l] eqn:Hs.
  - rewrite (handler_no_subscriptions env w req Hv Hc Ha (or_intror Hs)).
    cbn. split; [reflexivity|]. split; [lia|]. split; [reflexivity | exact T].
  - assert (Hne : subscriptions_of w req <> []) by (rewrite Hs; discriminate).
    destruct (handler_batch_projections env w req Hv Hc Ha He Hne) as (_ & _ & O & I & _).
    rewrite O, I, Hs. split; [apply issued_sequentially_pairs|].
    split; [|split; [reflexivity | exact T]].
    destruct l as [|s' l]; cbn; [lia | reflexivity].
Qed.

Lemma attempts_sequential_timeout_transient_witness :
  sends (trace (handler Examples.env0 Examples.w_three Examples.req_approved))
  = map pushSubscription_of (subscriptions_of Examples.w_three Examples.req_approved)
  /\ issued_sequentially (issue_settle (trace (handler Examples.env0 Examples.w_three
                                                    Examples.req_approved))) = true
  /\ issued_concurrently (issue_settle (trace (handler Examples.env0 Examples.w_three
                                                       Examples.req_approved))) = false
  /\ send_options (trace (handler Examples.env0 Examples.w_three Examples.req_approved))
     = map (fun _ => None) (subscriptions_of Examples.w_three Examples.req_approved)
  /\ classified (Rejected Examples.socket_timeout) transient_failure.
Proof.
  destruct (attempts_sequential_timeout_transient
              Examples.env0 Examples.w_three Examples.req_approved)
    as (H0 & H1 & H2 & H3 & H4); try reflexivity.
  split; [exact H0|].
  split; [exact H1|]. split; [apply H2; vm_compute; lia|]. split; [exact H3|].
  apply (H4 {| sent := 1; failedEndpoints := ["https://push.example/e2"]; calls := 2;
               log := [] |} Examples.row3 Examples.socket_timeout);
    [reflexivity | discriminate | discriminate].
Defined.

(** ** Upsert on [(user_id, endpoint)] *)

Section Upsert.

Variables (fresh_id : string) (now : Z) (v : Store.Values).

#[local] Abbreviation upd := (Store.resolve_conflict v).

Lemma conflicts_update_row r : Store.conflicts v (Store.update_row v r) = true.
Proof. unfold Store.conflicts. cbn. now rewrite !String.eqb_refl. Qed.

Lemma upd_keeps_key r :
  Store.user_id (upd r) = Store.user_id r /\ Store.endpoint (upd r) = Store.endpoint r.
Proof.
  unfold Store.resolve_conflict. destruct (Store.conflicts v r) eqn:E; [|now split].
  unfold Store.conflicts in E. apply andb_true_iff in E. destruct E as [E1 E2].
  apply String.eqb_eq in E1, E2. cbn. now split.
Qed.

Lemma same_key_upd r r' : Store.same_key (upd r) (upd r') = Store.same_key r r'.
Proof.
  unfold Store.same_key.
  destruct (upd_keeps_key r) as [-> ->]. destruct (upd_keeps_key r') as [-> ->].
  reflexivity.
Qed.

Lemma unique_map_upd t :
  Store.unique_user_endpoint (map upd t) = Store.unique_user_endpoint t.
Proof.
  induction t as [|r t IH]; [reflexivity|]. cbn. rewrite IH. f_equal. f_equal.
  clear IH. induction t as [|r' t IH]; [reflexivity|]. cbn.
  now rewrite same_key_upd, IH.
Qed.

Lemma unique_snoc t :
  Store.unique_user_endpoint t = true ->
  existsb (Store.conflicts v) t = false ->
  Store.unique_user_endpoint (t ++ [Store.insert_row fresh_id now v]) = true.
Proof.
  induction t as [|r t IH]; [reflexivity|]. cbn.
  rewrite andb_true_iff, orb_false_iff, negb_true_iff. intros [Hr Ht] [Hc Hex].
  rewrite existsb_app, Hr, (IH Ht Hex). cbn.
  unfold Store.same_key. cbn. unfold Store.conflicts in Hc. now rewrite Hc.
Qed.

(** The constraint survives an upsert. *)
Lemma upsert_keeps_unique t :
  Store.unique_user_endpoint t = true ->
  Store.unique_user_endpoint (Store.upsert fresh_id now v t) = true.
Proof.
  intro H. unfold Store.upsert. destruct (existsb (Store.conflicts v) t) eqn:E.
  - fold upd. now rewrite unique_map_upd.
  - now apply unique_snoc.
Qed.

Lemma conflicts_at_most_one t :
  Store.unique_user_endpoint t = true ->
  List.length (filter (Store.conflicts v) t) <= 1.
Proof.
  induction t as [|r t IH]; cbn; [lia|].
  rewrite andb_true_iff, negb_true_iff. intros [Hr Ht].
  destruct (Store.conflicts v r) eqn:E; [|now apply IH]. cbn.
  assert (N : filter (Store.conflicts v) t = []).
  { clear IH Ht. induction t as [|r' t IH]; [reflexivity|]. cbn in *.
    apply orb_false_iff in Hr. destruct Hr as [Hk Hr].
    destruct (Store.conflicts v r') eqn:E'; [|now apply IH].
    unfold Store.conflicts in E, E'.
    apply andb_true_iff in E, E'. destruct E as [E1 E2], E' as [E1' E2'].
    apply String.eqb_eq in E1, E2, E1', E2'.
    unfold Store.same_key in Hk. rewrite E1, E2, E1', E2', !String.eqb_refl in Hk.
    discriminate. }
  rewrite N. cbn. lia.
Qed.

Lemma filter_conflicts_map_upd t :
  filter (Store.conflicts v) (map upd t)
  = map (Store.update_row v) (filter (Store.conflicts v) t).
Proof.
  induction t as [|r t IH]; [reflexivity|]. cbn.
  change (upd r) with (if Store.conflicts v r then Store.update_row v r else r).
  destruct (Store.conflicts v r) eqn:E.
  - rewrite conflicts_update_row. cbn. now rewrite IH.
  - rewrite E. exact IH.
Qed.

Lemma filter_none {A} (P : A -> bool) (l : list A) :
  existsb P l = false -> filter P l = [].
Proof.
  induction l as [|a l IH]; [reflexivity|]. cbn. rewrite orb_false_iff.
  intros [-> H]. now apply IH.
Qed.

(** After an upsert the pair of the upserted values has exactly one row,
    and it carries the upserted keys. *)
Lemma upsert_single_row t :
  Store.unique_user_endpoint t = true ->
  exists r,
    Store.rows_for (Store.v_user_id v) (Store.v_endpoint v) (Store.upsert fresh_id now v t) = [r]
    /\ Store.p256dh r = Store.v_p256dh v
    /\ Store.auth r = Store.v_auth v.
Proof.
  intro H. unfold Store.rows_for. change (fun r => (Store.user_id r =? Store.v_user_id v)
                                                   && (Store.endpoint r =? Store.v_endpoint v))
    with (Store.conflicts v).
  unfold Store.upsert. destruct (existsb (Store.conflicts v) t) eqn:E.
  - fold upd. rewrite filter_conflicts_map_upd.
    pose proof (conflicts_at_most_one t H) as L.
    destruct (filter (Store.conflicts v) t) as [|r0 [|r1 l]] eqn:F.
    + apply existsb_exists in E. destruct E as (x & Hx & Hc).
      assert (I : In x (filter (Store.conflicts v) t)) by (apply filter_In; tauto).
      rewrite F in I. contradiction.
    + exists (Store.update_row v r0). repeat split.
    + cbn in L. lia.
  - rewrite filter_app, (filter_none _ _ E). cbn.
    unfold Store.conflicts at 1. cbn. rewrite !String.eqb_refl. cbn.
    exists (Store.insert_row fresh_id now v). repeat split.
Qed.

End Upsert.

(** C9. For every table satisfying [UNIQUE(user_id, endpoint)], every user
    and every endpoint: registering the endpoint for the user twice, with
    any two sets of credential keys (in particular different ones), leaves
    exactly one row for the pair, carrying the keys of the second
    registration; the constraint still holds afterwards. *)
Theorem upsert_twice_one_row_latest_keys t uid id1 now1 id2 now2 s1 s2 :
  Store.unique_user_endpoint t = true ->
  Hook.endpoint s1 = Hook.endpoint s2 ->
  exists r,
    Store.rows_for uid (Hook.endpoint s2)
      (Hook.register id2 now2 uid s2 (Hook.register id1 now1 uid s1 t)) = [r]
    /\ Store.user_id r = uid
    /\ Store.endpoint r = Hook.endpoint s2
    /\ Store.p256dh r = Hook.p256dh (Hook.keys s2)
    /\ Store.auth r = Hook.auth (Hook.keys s2)
    /\ Store.unique_user_endpoint
         (Hook.register id2 now2 uid s2 (Hook.register id1 now1 uid s1 t)) = true.
Proof.
  intros Hu He. unfold Hook.register.
  pose proof (upsert_keeps_unique id1 now1 (Hook.upsert_values uid s1) t Hu) as U1.
  pose proof (upsert_keeps_unique id2 now2 (Hook.upsert_values uid s2) _ U1) as U2.
  destruct (upsert_single_row id2 now2 (Hook.upsert_values uid s2) _ U1) as (r & R & K1 & K2).
  cbn [Hook.upsert_values Store.v_user_id Store.v_endpoint Store.v_p256dh Store.v_auth] in R, K1, K2.
  exists r. split; [exact R|].
  assert (I : In r (Store.rows_for uid (Hook.endpoint s2)
                      (Store.upsert id2 now2 (Hook.upsert_values uid s2)
                         (Store.upsert id1 now1 (Hook.upsert_values uid s1) t)))).
  { rewrite R. now left. }
  unfold Store.rows_for in I. apply filter_In in I. destruct I as [_ I].
  apply andb_true_iff in I. destruct I as [I1 I2]. apply String.eqb_eq in I1, I2.
  repeat split; assumption.
Qed.

Lemma upsert_twice_one_row_latest_keys_witness :
  exists r,
    Store.rows_for "u1" "https://push.example/e1"
      (Hook.register "7" 20 "u1" (Examples.browser_sub "https://push.example/e1" "p-new" "a-new")
         (Hook.register "6" 10 "u1" (Examples.browser_sub "https://push.example/e1" "p-old" "a-old")
            [Examples.row_other])) = [r]
    /\ Store.user_id r = "u1"
    /\ Store.endpoint r = "https://push.example/e1"
    /\ Store.p256dh r = "p-new"
    /\ Store.auth r = "a-new"
    /\ Store.unique_user_endpoint
         (Hook.register "7" 20 "u1" (Examples.browser_sub "https://push.example/e1" "p-new" "a-new")
            (Hook.register "6" 10 "u1" (Examples.browser_sub "https://push.example/e1" "p-old" "a-old")
               [Examples.row_other])) = true.
Proof.
  apply (upsert_twice_one_row_latest_keys [Examples.row_other] "u1" "6" 10%Z "7" 20%Z
           (Examples.browser_sub "https://push.example/e1" "p-old" "a-old")
           (Examples.browser_sub "https://push.example/e1" "p-new" "a-new")); reflexivity.
Defined.

(** ** The end-to-end scenario *)

(** Three subscriptions answered delivered, "gone" and timeout: one sent,
    one pruned; the "gone" endpoint is absent from the next listing, the
    timed-out one is still there. *)
Example delivered_gone_timeout :
  response Examples.run_three = ok (BResult 1 1)
  /\ deletes (trace Examples.run_three) = [["https://push.example/e2"]]
  /\ map Store.endpoint (Store.select_by_user "u1" (table_after Examples.run_three))
     = ["https://push.example/e1"; "https://push.example/e3"].
Proof. repeat split. Qed.

(** * Further properties of the edge function *)

Import Outcomes.

(** The ways a request leaves the handler before the lookup. *)
Lemma handler_gate_cases env w req :
  (is_preflight req = true
   /\ handler env w req
      = {| response := {| status := 200; headers := corsHeaders; body := BNull |};
           trace := []; table_after := table w |})
  \/ (is_preflight req = false /\ client_created env w = false
      /\ exists err, handler env w req = caught err [] w)
  \/ (is_preflight req = false /\ client_created env w = true /\ valid req = false
      /\ exists err, json req = Throws err /\ handler env w req = caught err [] w)
  \/ (is_preflight req = false /\ client_created env w = true /\ valid req = false
      /\ exists f, json req = Parsed f
         /\ handler env w req
            = {| response := {| status := 400; headers := jsonHeaders;
                                body := BError "Missing fields" |};
                 trace := []; table_after := table w |})
  \/ (is_preflight req = false /\ client_created env w = true
      /\ valid req = true /\ configured env = false
      /\ handler env w req
         = {| response := {| status := 500; headers := jsonHeaders;
                             body := BError "VAPID keys not configured" |};
              trace := []; table_after := table w |})
  \/ (is_preflight req = false /\ client_created env w = true
      /\ valid req = true /\ configured env = true /\ vapid_accepted env w = false
      /\ thrown_from env w req (handler env w req))
  \/ (is_preflight req = false /\ valid req = true /\ configured env = true
      /\ accepted env w = true).
Proof.
  unfold is_preflight, valid, accepted, client_created, vapid_accepted, thrown_from, handler.
  destruct (method req =? "OPTIONS") eqn:Hm; [left; split; reflexivity|].
  right. cbn [negb andb].
  destruct (createClient w _ _) as [cerr|]; cbn [is_some negb andb].
  { left. repeat split. now exists cerr. }
  right.
  destruct (json req) as [err|f] eqn:Hj.
  - left. repeat split. exists err. split; reflexivity.
  - right.
    destruct (truthy (signalement_id f)) eqn:H1,
             (truthy (user_id f)) eqn:H2,
             (truthy (new_status f)) eqn:H3; cbn [negb orb andb];
      try (left; repeat split; exists f; split; reflexivity).
    right. unfold configured.
    destruct (truthy (VAPID_PUBLIC_KEY env)), (truthy (VAPID_PRIVATE_KEY env));
      cbn [negb orb andb];
      try (left; repeat split; reflexivity).
    right. cbn zeta.
    destruct (setVapidDetails w _ _ _) as [verr|]; cbn [is_some negb].
    + left. repeat split. exists verr. now right.
    + right. repeat split.
Qed.

(** Past the gates the answer is a 200, with one of two bodies. *)
Lemma dispatch_response env w req :
  valid req = true -> configured env = true -> accepted env w = true ->
  response (handler env w req) = ok (BMessage 0 "No subscriptions found")
  \/ exists s f, response (handler env w req) = ok (BResult s f).
Proof.
  intros Hv Hc Ha. rewrite (handler_past_gates env w req Hv Hc Ha). cbn zeta.
  destruct (is_some _ || _ || _); [left; reflexivity|].
  right. destruct (0 <? _)%nat; eexists; eexists; reflexivity.
Qed.

(** The table after a request: untouched, or the result of one delete. *)
Lemma table_after_cases env w req :
  table_after (handler env w req) = table w
  \/ exists l, table_after (handler env w req) = Store.delete_in_endpoint l (table w).
Proof.
  destruct (handler_gate_cases env w req)
    as [[_ H]|[(_ & _ & e & H)|[(_ & _ & _ & e & _ & H)|[(_ & _ & _ & f & _ & H)
        |[(_ & _ & _ & _ & H)|[(_ & _ & _ & _ & _ & H)|(_ & Hv & Hc & Ha)]]]]]];
    try (rewrite H; left; reflexivity).
  - left. now destruct (thrown_projections env w req _ H) as (_ & _ & _ & _ & _ & _ & _ & _ & _ & T).
  - rewrite (handler_past_gates env w req Hv Hc Ha). cbn zeta.
    destruct (is_some _ || _ || _); [left; reflexivity|].
    destruct (0 <? _)%nat; [|left; reflexivity]. cbn [table_after]. unfold delete.
    destruct (Handler.delete_error w); [left; reflexivity|]. right. eexists. reflexivity.
Qed.

(** X1. Every response, on every path, carries the CORS headers; every
    response other than the preflight's is declared as JSON. *)
Theorem every_response_has_cors_headers env w req :
  (forall h, In h corsHeaders -> In h (headers (response (handler env w req))))
  /\ (is_preflight req = true -> headers (response (handler env w req)) = corsHeaders)
  /\ (is_preflight req = false ->
      In ("Content-Type", "application/json") (headers (response (handler env w req)))).
Proof.
  assert (J : forall h, In h corsHeaders -> In h jsonHeaders).
  { intros h Hh. unfold jsonHeaders. apply in_or_app. now left. }
  assert (C : In ("Content-Type", "application/json") jsonHeaders).
  { unfold jsonHeaders. apply in_or_app. right. now left. }
  assert (K : is_preflight req = false ->
              headers (response (handler env w req)) = jsonHeaders ->
              (forall h, In h corsHeaders -> In h (headers (response (handler env w req))))
              /\ (is_preflight req = true -> headers (response (handler env w req)) = corsHeaders)
              /\ (is_preflight req = false ->
                  In ("Content-Type", "application/json")
                     (headers (response (handler env w req))))).
  { intros P ->. repeat split; intros; try congruence; auto. }
  destruct (handler_gate_cases env w req)
    as [[P H]|[(P & _ & e & H)|[(P & _ & _ & e & _ & H)|[(P & _ & _ & f & _ & H)
        |[(P & _ & _ & _ & H)|[(P & _ & _ & _ & _ & H)|(P & Hv & Hc & Ha)]]]]]];
    try (apply (K P); rewrite H; reflexivity).
  - rewrite H. cbn [response headers]. repeat split; intros; try congruence; auto.
  - apply (K P). now destruct (thrown_projections env w req _ H) as (_ & T & _).
  - apply (K P).
    destruct (dispatch_response env w req Hv Hc Ha) as [-> | (s & f & ->)]; reflexivity.
Qed.

Lemma every_response_has_cors_headers_witness :
  headers (response (handler Examples.env0 Examples.w_one
                       {| method := "OPTIONS"; json := Throws "SyntaxError" |}))
  = corsHeaders
  /\ In ("Content-Type", "application/json")
        (headers (response (handler Examples.env0 Examples.w_one Examples.req_no_status))).
Proof.
  split.
  - apply (every_response_has_cors_headers Examples.env0 Examples.w_one
             {| method := "OPTIONS"; json := Throws "SyntaxError" |}). reflexivity.
  - apply (every_response_has_cors_headers Examples.env0 Examples.w_one Examples.req_no_status).
    reflexivity.
Defined.

(** The status code, read off the gates. *)
Lemma status_formula env w req :
  status (response (handler env w req))
  = if is_preflight req then 200%Z
    else if negb (client_created env w) then 500%Z
    else match json req with
         | Throws _ => 500%Z
         | Parsed _ =>
             if negb (valid req) then 400%Z
             else if negb (configured env) then 500%Z
             else if vapid_accepted env w then 200%Z else 500%Z
         end.
Proof.
  destruct (handler_gate_cases env w req)
    as [[P H]|[(P & CC & e & H)|[(P & CC & V & e & J & H)|[(P & CC & V & f & J & H)
        |[(P & CC & V & C & H)|[(P & CC & V & C & A & H)|(P & V & C & A)]]]]]].
  - now rewrite H, P.
  - now rewrite H, P, CC.
  - now rewrite H, P, CC, J.
  - now rewrite H, P, CC, J, V.
  - destruct (valid_inv req V) as (_ & J & _). now rewrite H, P, CC, J, V, C.
  - destruct (valid_inv req V) as (_ & J & _). rewrite P, CC, J, V, C, A.
    now destruct (thrown_projections env w req _ H) as (T & _).
  - destruct (valid_inv req V) as (_ & J & _).
    unfold accepted in A. apply andb_true_iff in A. destruct A as [CC A].
    rewrite P, CC, J, V, C, A. apply dispatch_status; auto.
    unfold accepted. now rewrite CC, A.
Qed.

(** Three exclusive answers, each under its own condition. *)
Lemma three_statuses (code : Z) (A B C : Prop) :
  (A -> code = 200%Z) -> (B -> code = 400%Z) -> (C -> code = 500%Z) ->
  A \/ B \/ C ->
  (code = 200%Z <-> A) /\ (code = 400%Z <-> B) /\ (code = 500%Z <-> C).
Proof.
  intros HA HB HC H. split; [|split]; (split; [intro E | assumption]).
  - destruct H as [a | [b | c]]; [exact a | exfalso | exfalso].
    + rewrite (HB b) in E. discriminate.
    + rewrite (HC c) in E. discriminate.
  - destruct H as [a | [b | c]]; [exfalso | exact b | exfalso].
    + rewrite (HA a) in E. discriminate.
    + rewrite (HC c) in E. discriminate.
  - destruct H as [a | [b | c]]; [exfalso | exfalso | exact c].
    + rewrite (HA a) in E. discriminate.
    + rewrite (HB b) in E. discriminate.
Qed.

(** X2. The status code is decided before the lookup: 200 exactly for a
    preflight, or for a valid request in a deployment whose VAPID keys are
    present and whose configuration [createClient] and [setVapidDetails]
    accept (whatever the store and the transport then do); 400 exactly for a
    non-preflight request, with the client created, whose body parses and
    lacks a field; 500 exactly for a non-preflight request for which
    [createClient] throws, or the body cannot be read, or that is valid
    while a VAPID key is missing or [setVapidDetails] throws. *)
Theorem status_decided_by_gates env w req :
  (status (response (handler env w req)) = 200%Z <->
   is_preflight req = true
   \/ (valid req = true /\ configured env = true /\ accepted env w = true))
  /\ (status (response (handler env w req)) = 400%Z <->
      is_preflight req = false /\ client_created env w = true
      /\ valid req = false /\ exists f, json req = Parsed f)
  /\ (status (response (handler env w req)) = 500%Z <->
      is_preflight req = false
      /\ (client_created env w = false
          \/ (exists err, json req = Throws err)
          \/ (valid req = true /\ configured env = false)
          \/ (valid req = true /\ configured env = true /\ accepted env w = false))).
Proof.
  rewrite status_formula.
  apply three_statuses.
  - intros [Hp | (Hv & Hc & Ha)]; [now rewrite Hp|].
    destruct (valid_inv req Hv) as (Hm & Hj & _). fold (is_preflight req) in Hm.
    unfold accepted in Ha. apply andb_true_iff in Ha. destruct Ha as [Hcc Ha].
    now rewrite Hm, Hcc, Hj, Hv, Hc, Ha.
  - intros (Hp & Hcc & Hv & f & Hj). now rewrite Hp, Hcc, Hj, Hv.
  - intros (Hp & H). rewrite Hp.
    destruct (client_created env w) eqn:Hcc; [|reflexivity]. cbn [negb].
    destruct H as [H | [(err & Hj) | [(Hv & Hc) | (Hv & Hc & Ha)]]].
    + discriminate.
    + now rewrite Hj.
    + destruct (valid_inv req Hv) as (_ & Hj & _). now rewrite Hj, Hv, Hc.
    + destruct (valid_inv req Hv) as (_ & Hj & _).
      unfold accepted in Ha. rewrite Hcc in Ha. cbn in Ha. now rewrite Hj, Hv, Hc, Ha.
  - destruct (is_preflight req) eqn:Hp; [now left; left|].
    destruct (client_created env w) eqn:Hcc;
      [|right; right; split; [reflexivity | now left]].
    destruct (json req) as [err|f] eqn:Hj;
      [right; right; split; [reflexivity | right; left; now exists err]|].
    destruct (valid req) eqn:Hv;
      [|right; left; repeat split; now exists f].
    destruct (configured env) eqn:Hc;
      [|right; right; split; [reflexivity | right; right; left; now split]].
    unfold accepted. rewrite Hcc. cbn [andb].
    destruct (vapid_accepted env w).
    + left. right. repeat split.
    + right; right. split; [reflexivity|]. right; right; right. repeat split.
Qed.

(** X3. Unless the request is valid and the VAPID keys are configured,
    the handler touches neither the store nor the transport: no lookup, no
    delete, no [sendNotification] call, and the table is left as it was.
    This covers preflights, unparseable bodies, missing fields and missing
    keys. *)
Theorem no_effect_unless_valid_and_configured env w req :
  valid req && configured env = false ->
  store_accesses (trace (handler env w req)) = 0
  /\ sends (trace (handler env w req)) = []
  /\ table_after (handler env w req) = table w.
Proof.
  intro Hn.
  destruct (handler_gate_cases env w req)
    as [[P H]|[(P & CC & e & H)|[(P & CC & V & e & J & H)|[(P & CC & V & f & J & H)
        |[(P & CC & V & C & H)|[(P & CC & V & C & A & H)|(P & V & C & A)]]]]]];
    try (rewrite H; repeat split; reflexivity);
    rewrite V, C in Hn; discriminate.
Qed.

Lemma no_effect_unless_valid_and_configured_witness :
  store_accesses (trace (handler Examples.env_no_vapid Examples.w_three Examples.req_approved)) = 0
  /\ sends (trace (handler Examples.env_no_vapid Examples.w_three Examples.req_approved)) = []
  /\ table_after (handler Examples.env_no_vapid Examples.w_three Examples.req_approved)
     = table Examples.w_three.
Proof.
  apply (no_effect_unless_valid_and_configured
           Examples.env_no_vapid Examples.w_three Examples.req_approved). reflexivity.
Defined.

(** ** What a request does to the table *)

Lemma delete_in_nil t : Store.delete_in_endpoint [] t = t.
Proof.
  unfold Store.delete_in_endpoint, Store.mem. cbn.
  induction t as [|r t IH]; cbn; [reflexivity | now f_equal].
Qed.

Lemma mem_In s l : Store.mem s l = true <-> In s l.
Proof.
  unfold Store.mem. rewrite existsb_exists. split.
  - intros (x & Hx & E). apply String.eqb_eq in E. now subst.
  - intro H. exists s. split; [exact H | apply String.eqb_refl].
Qed.

Lemma unique_filter (P : Store.Row -> bool) t :
  Store.unique_user_endpoint t = true ->
  Store.unique_user_endpoint (filter P t) = true.
Proof.
  induction t as [|r t IH]; [reflexivity|]. cbn.
  rewrite andb_true_iff, negb_true_iff. intros [Hr Ht].
  destruct (P r); [|now apply IH]. cbn. rewrite (IH Ht), andb_true_r.
  apply negb_true_iff.
  destruct (existsb (Store.same_key r) (filter P t)) eqn:E; [|reflexivity].
  apply existsb_exists in E. destruct E as (x & Hx & Hk). apply filter_In in Hx.
  assert (X : existsb (Store.same_key r) t = true)
    by (apply existsb_exists; exists x; tauto).
  congruence.
Qed.

(** With lookup and delete succeeding, the table after a valid request
    in an accepted deployment is the table before with one delete applied. *)
Lemma table_after_pruned env w req :
  valid req = true -> configured env = true -> accepted env w = true ->
  select_error w = None -> Handler.delete_error w = None ->
  table_after (handler env w req)
  = Store.delete_in_endpoint (gone_endpoints w req) (table w).
Proof.
  intros Hv Hc Ha He Hd.
  destruct (subscriptions_of w req) as [|s l] eqn:Hs.
  - rewrite (handler_no_subscriptions env w req Hv Hc Ha (or_intror Hs)).
    unfold gone_endpoints, batch. rewrite Hs. cbn. now rewrite delete_in_nil.
  - assert (Hne : subscriptions_of w req <> []) by (rewrite Hs; discriminate).
    rewrite (handler_batch env w req Hv Hc Ha He Hne). cbn zeta. cbn [table_after].
    destruct (gone_endpoints w req); [now rewrite delete_in_nil|].
    unfold delete. now rewrite Hd.
Qed.

(** X4. When lookup and delete both succeed, the table after a valid
    request, in a deployment whose VAPID keys are present and whose
    configuration the libraries accept, is the table before minus every row,
    of any user, whose endpoint is among those rejected with 410 or 404 in
    the batch: a row is kept exactly when its endpoint is not one of them. *)
Theorem prune_is_by_endpoint env w req :
  valid req = true -> configured env = true -> accepted env w = true ->
  select_error w = None -> Handler.delete_error w = None ->
  table_after (handler env w req)
  = Store.delete_in_endpoint (gone_endpoints w req) (table w)
  /\ forall row, In row (table_after (handler env w req)) <->
                 In row (table w) /\ ~ In (Store.endpoint row) (gone_endpoints w req).
Proof.
  intros Hv Hc Ha He Hd.
  pose proof (table_after_pruned env w req Hv Hc Ha He Hd) as E.
  split; [exact E|]. intro row. rewrite E. unfold Store.delete_in_endpoint.
  rewrite filter_In, negb_true_iff, <- mem_In.
  destruct (Store.mem (Store.endpoint row) (gone_endpoints w req)); split;
    intros [H1 H2]; split; auto; congruence.
Qed.

Lemma prune_is_by_endpoint_witness :
  table_after (handler Examples.env0 Examples.w_three Examples.req_approved)
  = Store.delete_in_endpoint (gone_endpoints Examples.w_three Examples.req_approved)
                             (table Examples.w_three)
  /\ forall row,
       In row (table_after (handler Examples.env0 Examples.w_three Examples.req_approved)) <->
       In row (table Examples.w_three)
       /\ ~ In (Store.endpoint row) (gone_endpoints Examples.w_three Examples.req_approved).
Proof.
  apply (prune_is_by_endpoint Examples.env0 Examples.w_three Examples.req_approved);
    reflexivity.
Defined.

(** X5. Whatever the request, the environment and the world, the handler
    only ever removes rows: every row of the table it leaves was there
    before, and the [UNIQUE(user_id, endpoint)] constraint still holds if it
    held. *)
Theorem handler_only_removes_rows env w req :
  (forall row, In row (table_after (handler env w req)) -> In row (table w))
  /\ List.length (table_after (handler env w req)) <= List.length (table w)
  /\ (Store.unique_user_endpoint (table w) = true ->
      Store.unique_user_endpoint (table_after (handler env w req)) = true).
Proof.
  destruct (table_after_cases env w req) as [-> | (l & ->)].
  - repeat split; auto.
  - unfold Store.delete_in_endpoint. repeat split.
    + intros row H. apply filter_In in H. tauto.
    + apply filter_length_le.
    + apply unique_filter.
Qed.

Lemma handler_only_removes_rows_witness :
  Store.unique_user_endpoint
    (table_after (handler Examples.env0 Examples.w_three Examples.req_approved)) = true.
Proof.
  apply (handler_only_removes_rows Examples.env0 Examples.w_three Examples.req_approved).
  reflexivity.
Defined.

(** ** The next listing *)

Lemma NoDup_map_injective {A B} (g : A -> B) (l : list A) a a' :
  NoDup (map g l) -> In a l -> In a' l -> g a = g a' -> a = a'.
Proof.
  induction l as [|x l IH]; cbn; [contradiction|].
  intros N Ha Ha' E. inversion N as [|y l' Hn Hd]; subst.
  destruct Ha as [->|Ha], Ha' as [->|Ha']; auto.
  - exfalso. apply Hn. rewrite E. now apply in_map.
  - exfalso. apply Hn. rewrite <- E. now apply in_map.
Qed.

Lemma filter_map_commute {A B} (g : A -> B) (P : B -> bool) (l : list A) :
  filter P (map g l) = map g (filter (fun a => P (g a)) l).
Proof.
  induction l as [|a l IH]; [reflexivity|]. cbn.
  destruct (P (g a)); cbn; now rewrite IH.
Qed.

Lemma select_filter_commute uid (P : Store.Row -> bool) t :
  Store.select_by_user uid (filter P t) = filter P (Store.select_by_user uid t).
Proof.
  unfold Store.select_by_user. induction t as [|r t IH]; [reflexivity|]. cbn.
  destruct (P r) eqn:Ep, (Store.user_id r =? uid) eqn:Eu; cbn;
    rewrite ?Ep, ?Eu, IH; reflexivity.
Qed.

(** X6. On a table satisfying the uniqueness constraint, when lookup and
    delete succeed, the user's listing right after a valid request, in a
    deployment whose VAPID keys are present and whose configuration the
    libraries accept, is exactly the subscriptions whose own attempt was not rejected
    with 410 or 404, in their original order: every delivered and every
    transiently failed subscription is still listed, unchanged, and no
    "gone" or "not found" one is. *)
Theorem next_listing_is_the_survivors env w req :
  Store.unique_user_endpoint (table w) = true ->
  valid req = true -> configured env = true -> accepted env w = true ->
  select_error w = None -> Handler.delete_error w = None ->
  Store.select_by_user (str (user_id (fields req))) (table_after (handler env w req))
  = survivors w req.
Proof.
  intros Hu Hv Hc Ha He Hd.
  rewrite (table_after_pruned env w req Hv Hc Ha He Hd).
  unfold Store.delete_in_endpoint. rewrite select_filter_commute.
  fold (subscriptions_of w req). rewrite <- (batch_rows w req) at 1.
  rewrite filter_map_commute. unfold survivors. f_equal.
  apply filter_ext_in. intros a Hin. f_equal.
  pose proof (unique_select_NoDup (str (user_id (fields req))) (table w) Hu) as N.
  fold (subscriptions_of w req) in N. rewrite <- (map_batch Store.endpoint) in N.
  destruct (is_gone (result_of w (payload_of req) a)) eqn:G.
  - apply mem_In. unfold gone_endpoints. apply in_map_iff. exists a.
    split; [reflexivity|]. apply filter_In. now split.
  - destruct (Store.mem (Store.endpoint (snd a)) (gone_endpoints w req)) eqn:M; [|reflexivity].
    apply mem_In in M. unfold gone_endpoints in M. apply in_map_iff in M.
    destruct M as (a' & E & Ha'). apply filter_In in Ha'. destruct Ha' as [Ha' G'].
    assert (a' = a)
      by (apply (NoDup_map_injective (fun a => Store.endpoint (snd a)) (batch w req)); auto).
    subst a'. congruence.
Qed.

Lemma next_listing_is_the_survivors_witness :
  Store.select_by_user (str (user_id (fields Examples.req_approved)))
    (table_after (handler Examples.env0 Examples.w_three Examples.req_approved))
  = survivors Examples.w_three Examples.req_approved.
Proof.
  apply (next_listing_is_the_survivors Examples.env0 Examples.w_three Examples.req_approved);
    reflexivity.
Defined.

(** ** Accounting *)

Lemma three_way_split {A} (f : A -> SendResult) (g : A -> string) (l : list A) :
  List.length (filter is_resolved (map f l))
  + List.length (map g (filter (fun a => is_gone (f a)) l))
  + List.length (filter is_transient (map f l))
  = List.length l.
Proof.
  induction l as [|a l IH]; [reflexivity|]. cbn [map filter].
  unfold is_transient at 1.
  destruct (f a) as [|e]; cbn [is_resolved is_gone negb andb].
  - cbn [List.length]. lia.
  - destruct (status_is (statusCode e) 410 || status_is (statusCode e) 404);
      cbn [negb List.length map]; lia.
Qed.

(** X7. For every dispatched batch (a valid request with a non-empty
    listing, in a deployment whose VAPID keys are present and whose
    configuration the libraries accept) the counts add up: [sent] plus
    [failed] plus the number of attempts rejected with anything other than
    410 or 404 equals the number of subscriptions; in particular
    [sent + failed] never exceeds it. *)
Theorem counts_add_up env w req :
  valid req = true -> configured env = true -> accepted env w = true ->
  select_error w = None -> subscriptions_of w req <> [] ->
  exists sent failed,
    response (handler env w req) = ok (BResult sent failed)
    /\ sent + failed + List.length (filter is_transient (results w req))
       = List.length (subscriptions_of w req)
    /\ sent + failed <= List.length (subscriptions_of w req).
Proof.
  intros Hv Hc Ha He Hs. rewrite (handler_batch env w req Hv Hc Ha He Hs). cbn zeta. cbn [response].
  eexists. eexists. split; [reflexivity|].
  pose proof (three_way_split (result_of w (payload_of req))
                (fun a => Store.endpoint (snd a)) (batch w req)) as T.
  fold (results w req) in T. fold (gone_endpoints w req) in T.
  assert (L : List.length (batch w req) = List.length (subscriptions_of w req))
    by apply attempts_from_length.
  rewrite L in T. lia.
Qed.

Lemma counts_add_up_witness :
  exists sent failed,
    response (handler Examples.env0 Examples.w_three Examples.req_approved)
    = ok (BResult sent failed)
    /\ sent + failed
       + List.length (filter is_transient (results Examples.w_three Examples.req_approved))
       = List.length (subscriptions_of Examples.w_three Examples.req_approved)
    /\ sent + failed <= List.length (subscriptions_of Examples.w_three Examples.req_approved).
Proof.
  apply (counts_add_up Examples.env0 Examples.w_three Examples.req_approved);
    try reflexivity.
  vm_compute. discriminate.
Defined.

(** ** The delete's answer, and the payload *)

(** X8. The delete's result is never looked at: whether the delete fails
    or not, the response and the trace of calls are the same, so a failed
    prune is still reported in [failed]; when it fails the table is left
    untouched. *)
Theorem delete_error_never_surfaces env w req e :
  response (handler env (with_delete_error e w) req) = response (handler env w req)
  /\ trace (handler env (with_delete_error e w) req) = trace (handler env w req)
  /\ (forall err, table_after (handler env (with_delete_error (Some err) w) req) = table w).
Proof.
  assert (D : forall e' p st l,
             deliver_all (with_delete_error e' w) p st l = deliver_all w p st l).
  { intros e' p st l. revert st. unfold deliver_all.
    induction l as [|r l IH]; intro st; [reflexivity|]. cbn [fold_left].
    rewrite IH. reflexivity. }
  assert (G : forall e',
             response (handler env (with_delete_error e' w) req) = response (handler env w req)
             /\ trace (handler env (with_delete_error e' w) req) = trace (handler env w req)
             /\ (e' <> None ->
                 table_after (handler env (with_delete_error e' w) req) = table w)).
  { intro e'. unfold handler, caught.
    change (createClient (with_delete_error e' w)) with (createClient w).
    change (setVapidDetails (with_delete_error e' w)) with (setVapidDetails w).
    change (table (with_delete_error e' w)) with (table w).
    destruct (method req =? "OPTIONS"); [repeat split|].
    destruct (createClient w _ _); [repeat split|].
    destruct (json req) as [err|f]; [repeat split|].
    destruct (negb _ || negb _ || negb _); [repeat split|].
    destruct (negb _ || negb _); [repeat split|].
    cbn zeta.
    destruct (setVapidDetails w _ _ _); [repeat split|].
    change (select (with_delete_error e' w) (str (user_id f))) with (select w (str (user_id f))).
    destruct (is_some _ || _ || _); [repeat split|].
    rewrite !D.
    destruct (0 <? _)%nat; [|repeat split].
    split; [reflexivity|]. split; [reflexivity|].
    intro Hne. cbn [table_after]. unfold delete. cbn [Handler.delete_error with_delete_error].
    destruct e'; [reflexivity | congruence]. }
  destruct (G e) as (G1 & G2 & _). split; [exact G1|]. split; [exact G2|].
  intro err. apply (G (Some err)). discriminate.
Qed.

(** X9. One payload is built per request: every payload handed to the
    transport during a valid, configured request is that same payload,
    whatever the subscription; for [new_status = "approved"] it carries the
    "approved" title and body. *)
Theorem one_payload_per_request env w req :
  valid req = true -> configured env = true ->
  (forall p, In p (payloads (trace (handler env w req))) -> p = payload_of req)
  /\ (new_status (fields req) = Some "approved" ->
      title (payload_of req) = "✅ Signalement approuvé"
      /\ body_text (payload_of req) = "Votre signalement a été approuvé par l'administrateur."
      /\ data_status (data (payload_of req)) = "approved").
Proof.
  intros Hv Hc. split.
  - destruct (accepted env w) eqn:Ha.
    + destruct (select_error w) as [e|] eqn:He.
      * rewrite (handler_no_subscriptions env w req Hv Hc Ha); [contradiction|].
        left. congruence.
      * destruct (subscriptions_of w req) as [|s l] eqn:Hs.
        -- rewrite (handler_no_subscriptions env w req Hv Hc Ha (or_intror Hs)). contradiction.
        -- assert (Hne : subscriptions_of w req <> []) by (rewrite Hs; discriminate).
           destruct (handler_batch_projections env w req Hv Hc Ha He Hne) as (_ & P & _).
           rewrite P. intros p Hin. apply in_map_iff in Hin.
           now destruct Hin as (x & <- & _).
    + destruct (thrown_projections env w req _ (handler_not_accepted env w req Hv Hc Ha))
        as (_ & _ & _ & _ & P & _).
      rewrite P. contradiction.
  - intro Ha. unfold payload_of. rewrite Ha. repeat split.
Qed.

Lemma one_payload_per_request_witness :
  (forall p, In p (payloads (trace (handler Examples.env0 Examples.w_three Examples.req_approved))) ->
             p = payload_of Examples.req_approved)
  /\ title (payload_of Examples.req_approved) = "✅ Signalement approuvé"
  /\ body_text (payload_of Examples.req_approved)
     = "Votre signalement a été approuvé par l'administrateur."
  /\ data_status (data (payload_of Examples.req_approved)) = "approved".
Proof.
  destruct (one_payload_per_request Examples.env0 Examples.w_three Examples.req_approved)
    as [H1 H2]; try reflexivity.
  split; [exact H1 | apply H2; reflexivity].
Defined.

(** X10. The tag identifies the report and nothing else: two payloads
    have the same tag exactly when they are about the same
    [signalement_id], whatever their statuses. *)
Theorem tag_identifies_the_report sid1 st1 sid2 st2 :
  tag (notificationPayload sid1 st1) = tag (notificationPayload sid2 st2) <-> sid1 = sid2.
Proof.
  cbn. split; [|now intros ->]. intro H. now inversion H.
Qed.

(** * Further properties of the store statements *)

Lemma resolve_conflict_idempotent v r :
  Store.resolve_conflict v (Store.resolve_conflict v r) = Store.resolve_conflict v r.
Proof.
  unfold Store.resolve_conflict. destruct (Store.conflicts v r) eqn:E.
  - now rewrite conflicts_update_row.
  - now rewrite E.
Qed.

Lemma resolve_conflict_no_conflict v t :
  existsb (Store.conflicts v) t = false -> map (Store.resolve_conflict v) t = t.
Proof.
  induction t as [|r t IH]; [reflexivity|]. cbn. rewrite orb_false_iff. intros [E H].
  unfold Store.resolve_conflict at 1. now rewrite E, (IH H).
Qed.

Lemma existsb_conflicts_upsert fresh_id now v t :
  existsb (Store.conflicts v) (Store.upsert fresh_id now v t) = true.
Proof.
  unfold Store.upsert. destruct (existsb (Store.conflicts v) t) eqn:E.
  - apply existsb_exists in E. destruct E as (r & Hr & Hc).
    apply existsb_exists. exists (Store.resolve_conflict v r). split.
    + now apply in_map.
    + unfold Store.resolve_conflict. rewrite Hc. apply conflicts_update_row.
  - rewrite existsb_app. cbn. unfold Store.conflicts at 2. cbn.
    rewrite !String.eqb_refl. cbn. apply orb_true_r.
Qed.

(** X11. Upsert is idempotent: upserting the same values again, whatever
    fresh id and timestamp the database has at hand the second time,
    changes nothing. *)
Theorem upsert_idempotent id1 now1 id2 now2 v t :
  Store.upsert id2 now2 v (Store.upsert id1 now1 v t) = Store.upsert id1 now1 v t.
Proof.
  unfold Store.upsert at 1. rewrite existsb_conflicts_upsert.
  unfold Store.upsert. destruct (existsb (Store.conflicts v) t) eqn:E.
  - rewrite map_map. apply map_ext. intro r. apply resolve_conflict_idempotent.
  - rewrite map_app, (resolve_conflict_no_conflict v t E). cbn. f_equal.
    unfold Store.resolve_conflict.
    replace (Store.conflicts v (Store.insert_row id1 now1 v)) with true.
    + reflexivity.
    + unfold Store.conflicts. cbn. now rewrite !String.eqb_refl.
Qed.

Lemma filter_upsert (P : Store.Row -> bool) fresh_id now v t :
  (forall r, Store.conflicts v r = true -> P r = false) ->
  filter P (Store.upsert fresh_id now v t) = filter P t.
Proof.
  intro H. unfold Store.upsert. destruct (existsb (Store.conflicts v) t).
  - induction t as [|r t IH]; [reflexivity|]. cbn.
    change (Store.resolve_conflict v r)
      with (if Store.conflicts v r then Store.update_row v r else r).
    destruct (Store.conflicts v r) eqn:E.
    + rewrite (H _ (conflicts_update_row v r)), (H _ E). exact IH.
    + destruct (P r); now rewrite IH.
  - rewrite filter_app. cbn.
    rewrite (H (Store.insert_row fresh_id now v)); [apply app_nil_r|].
    unfold Store.conflicts. cbn. now rewrite !String.eqb_refl.
Qed.

(** X12. An upsert concerns one pair only: the rows stored for any other
    [(user_id, endpoint)] pair, and the whole listing of any other user,
    are what they were. *)
Theorem upsert_leaves_the_rest fresh_id now v t :
  (forall uid e,
     (uid =? Store.v_user_id v) && (e =? Store.v_endpoint v) = false ->
     Store.rows_for uid e (Store.upsert fresh_id now v t) = Store.rows_for uid e t)
  /\ (forall uid,
        (uid =? Store.v_user_id v) = false ->
        Store.select_by_user uid (Store.upsert fresh_id now v t) = Store.select_by_user uid t).
Proof.
  split.
  - intros uid e H. unfold Store.rows_for. apply filter_upsert.
    intros r C. unfold Store.conflicts in C. apply andb_true_iff in C.
    destruct C as [C1 C2]. apply String.eqb_eq in C1, C2. rewrite C1, C2.
    now rewrite (String.eqb_sym (Store.v_user_id v)), (String.eqb_sym (Store.v_endpoint v)).
  - intros uid H. unfold Store.select_by_user. apply filter_upsert.
    intros r C. unfold Store.conflicts in C. apply andb_true_iff in C.
    destruct C as [C1 _]. apply String.eqb_eq in C1. rewrite C1.
    now rewrite String.eqb_sym.
Qed.

Lemma upsert_leaves_the_rest_witness :
  Store.rows_for "u2" "https://push.example/e9"
    (Store.upsert "9" 5 (Hook.upsert_values "u1"
                           (Examples.browser_sub "https://push.example/e9" "p" "a"))
       [Examples.row_other])
  = Store.rows_for "u2" "https://push.example/e9" [Examples.row_other]
  /\ Store.select_by_user "u2"
       (Store.upsert "9" 5 (Hook.upsert_values "u1"
                              (Examples.browser_sub "https://push.example/e9" "p" "a"))
          [Examples.row_other])
     = Store.select_by_user "u2" [Examples.row_other].
Proof.
  split;
    apply (upsert_leaves_the_rest "9" 5%Z
             (Hook.upsert_values "u1" (Examples.browser_sub "https://push.example/e9" "p" "a"))
             [Examples.row_other]); reflexivity.
Defined.

(** X13. Each of the three statements that write the table keeps
    [UNIQUE(user_id, endpoint)]: the upsert, the delete by endpoint list,
    and the delete by user and endpoint. *)
Theorem store_writes_keep_unique t :
  Store.unique_user_endpoint t = true ->
  (forall fresh_id now v, Store.unique_user_endpoint (Store.upsert fresh_id now v t) = true)
  /\ (forall endpoints,
        Store.unique_user_endpoint (Store.delete_in_endpoint endpoints t) = true)
  /\ (forall uid e, Store.unique_user_endpoint (Store.delete_user_endpoint uid e t) = true).
Proof.
  intro H. repeat split; intros.
  - now apply upsert_keeps_unique.
  - now apply unique_filter.
  - now apply unique_filter.
Qed.

Lemma store_writes_keep_unique_witness :
  (forall fresh_id now v,
     Store.unique_user_endpoint
       (Store.upsert fresh_id now v [Examples.row1; Examples.row2; Examples.row_other]) = true)
  /\ (forall endpoints,
        Store.unique_user_endpoint
          (Store.delete_in_endpoint endpoints
             [Examples.row1; Examples.row2; Examples.row_other]) = true)
  /\ (forall uid e,
        Store.unique_user_endpoint
          (Store.delete_user_endpoint uid e
             [Examples.row1; Examples.row2; Examples.row_other]) = true).
Proof.
  apply (store_writes_keep_unique [Examples.row1; Examples.row2; Examples.row_other]).
  reflexivity.
Defined.

Lemma delete_in_ext l l' t :
  (forall e, In e l <-> In e l') ->
  Store.delete_in_endpoint l t = Store.delete_in_endpoint l' t.
Proof.
  intro H. unfold Store.delete_in_endpoint. apply filter_ext. intro r. f_equal.
  destruct (Store.mem (Store.endpoint r) l) eqn:M, (Store.mem (Store.endpoint r) l') eqn:M';
    try reflexivity.
  - apply mem_In, H, mem_In in M. congruence.
  - apply mem_In, H, mem_In in M'. congruence.
Qed.

(** X14. The batched delete depends only on which endpoints are listed:
    lists with the same elements (in any order, with or without
    repetitions) delete the same rows; and deleting a concatenated list is
    deleting one part after the other. *)
Theorem batched_delete_depends_on_the_set l l' t :
  ((forall e, In e l <-> In e l') ->
   Store.delete_in_endpoint l t = Store.delete_in_endpoint l' t)
  /\ Store.delete_in_endpoint (l ++ l') t
     = Store.delete_in_endpoint l (Store.delete_in_endpoint l' t)
  /\ Store.delete_in_endpoint (l ++ l) t = Store.delete_in_endpoint l t.
Proof.
  split; [apply delete_in_ext|]. split.
  - unfold Store.delete_in_endpoint. induction t as [|r t IH]; [reflexivity|]. cbn.
    unfold Store.mem at 1. rewrite existsb_app.
    fold (Store.mem (Store.endpoint r) l). fold (Store.mem (Store.endpoint r) l').
    destruct (Store.mem (Store.endpoint r) l') eqn:M'; cbn.
    + rewrite orb_true_r. cbn. exact IH.
    + rewrite orb_false_r. destruct (Store.mem (Store.endpoint r) l); cbn; now rewrite IH.
  - apply delete_in_ext. intro e. rewrite in_app_iff. tauto.
Qed.

Lemma batched_delete_depends_on_the_set_witness :
  Store.delete_in_endpoint ["https://push.example/e1"; "https://push.example/e1"]
                           [Examples.row1; Examples.row2]
  = Store.delete_in_endpoint ["https://push.example/e1"] [Examples.row1; Examples.row2].
Proof.
  apply (proj1 (batched_delete_depends_on_the_set
                  ["https://push.example/e1"; "https://push.example/e1"]
                  ["https://push.example/e1"] [Examples.row1; Examples.row2])).
  intro e. cbn. tauto.
Defined.

(** * Properties of the browser hook *)

Lemma vapid_key_present : negb (truthy (Some PushHook.VAPID_PUBLIC_KEY)) = false.
Proof. reflexivity. Qed.

Ltac hook_paths b :=
  destruct (PushHook.sw_ready b) as [[]|?];
  [destruct (PushHook.requestPermission b) as [perm|?];
   [destruct (perm =? "granted") eqn:?;
    [destruct (Base64Url.urlBase64ToUint8Array (PushHook.atob b) PushHook.VAPID_PUBLIC_KEY)
       as [key|] eqn:?;
     [destruct (PushHook.pushManager_subscribe b key) as [subJson|?] eqn:?;
      [destruct (PushHook.upsert_error b) eqn:?| ]| ]| ]| ]| ].

(** X15. [subscribe] does nothing at all without a signed-in user or on
    an unsupported browser.  Otherwise, whatever the browser and the
    backend answer (including every exception), it ends with [loading]
    false and has shown exactly one toast. *)
Theorem subscribe_always_releases_loading user b st t :
  (Handler.is_some user && PushHook.isSupported st = false ->
   PushHook.subscribe user b st t
   = {| PushHook.state := st; PushHook.events := []; PushHook.table := t |})
  /\ (Handler.is_some user && PushHook.isSupported st = true ->
      PushHook.loading (PushHook.state (PushHook.subscribe user b st t)) = false
      /\ PushHook.toasts (PushHook.subscribe user b st t) = 1
      /\ PushHook.isSupported (PushHook.state (PushHook.subscribe user b st t)) = true).
Proof.
  unfold PushHook.subscribe. rewrite vapid_key_present.
  destruct (Handler.is_some user), (PushHook.isSupported st) eqn:S; cbn [negb orb andb];
    split; intro H; try discriminate; try reflexivity.
  hook_paths b; cbn [negb]; repeat split; cbn; auto.
Qed.

Lemma subscribe_always_releases_loading_witness :
  PushHook.subscribe None HookOutcomes.willing HookOutcomes.idle [Examples.row_other]
  = {| PushHook.state := HookOutcomes.idle; PushHook.events := [];
       PushHook.table := [Examples.row_other] |}
  /\ PushHook.loading (PushHook.state (PushHook.subscribe (Some "u1") HookOutcomes.refusing
                                         HookOutcomes.idle [Examples.row_other])) = false
  /\ PushHook.toasts (PushHook.subscribe (Some "u1") HookOutcomes.refusing
                        HookOutcomes.idle [Examples.row_other]) = 1
  /\ PushHook.isSupported (PushHook.state (PushHook.subscribe (Some "u1") HookOutcomes.refusing
                                             HookOutcomes.idle [Examples.row_other])) = true.
Proof.
  split.
  - apply (subscribe_always_releases_loading None HookOutcomes.willing HookOutcomes.idle
             [Examples.row_other]). reflexivity.
  - apply (subscribe_always_releases_loading (Some "u1") HookOutcomes.refusing
             HookOutcomes.idle [Examples.row_other]). reflexivity.
Defined.

(** What a successful [subscribe] went through and left behind. *)
Lemma subscribe_success user b st t :
  PushHook.succeeded (PushHook.subscribe user b st t) = true ->
  exists key subJson,
    PushHook.requestPermission b = PushHook.Fulfilled "granted"
    /\ Base64Url.urlBase64ToUint8Array (PushHook.atob b) PushHook.VAPID_PUBLIC_KEY = Some key
    /\ PushHook.pushManager_subscribe b key = PushHook.Fulfilled subJson
    /\ PushHook.upsert_error b = None
    /\ PushHook.table (PushHook.subscribe user b st t)
       = Hook.register (PushHook.fresh_id b) (PushHook.now b) (str user) subJson t
    /\ PushHook.state (PushHook.subscribe user b st t)
       = {| PushHook.isSupported := true; PushHook.permission := "granted";
            PushHook.isSubscribed := true; PushHook.loading := false |}.
Proof.
  unfold PushHook.subscribe. rewrite vapid_key_present.
  destruct (Handler.is_some user), (PushHook.isSupported st) eqn:S; cbn [negb orb andb];
    try (cbn; discriminate).
  hook_paths b; cbn [negb]; try (cbn; discriminate).
  intros _. exists key, subJson.
  match goal with H : (perm =? "granted") = true |- _ => apply String.eqb_eq in H; subst perm end.
  repeat split; auto. cbn [PushHook.state].
  unfold PushHook.setLoading, PushHook.setIsSubscribed, PushHook.setPermission. cbn.
  now rewrite S.
Qed.

Lemma subscribe_failure user b st t :
  PushHook.succeeded (PushHook.subscribe user b st t) = false ->
  PushHook.table (PushHook.subscribe user b st t) = t
  /\ PushHook.isSubscribed (PushHook.state (PushHook.subscribe user b st t))
     = PushHook.isSubscribed st.
Proof.
  unfold PushHook.subscribe. rewrite vapid_key_present.
  destruct (Handler.is_some user), (PushHook.isSupported st) eqn:S; cbn [negb orb andb];
    try (split; reflexivity).
  hook_paths b; cbn [negb]; try (split; reflexivity).
  cbn. discriminate.
Qed.

(** X16. [subscribe] writes the store only on the path that ends with the
    success toast.  On every other path (no user, unsupported browser,
    permission not granted, any exception, an upsert error) the table and
    the [isSubscribed] flag are what they were.  On the success path the
    permission was ["granted"], the upsert returned no error, the table is
    the upsert of the browser's subscription for the user, and the state
    ends as supported, granted, subscribed, not loading. *)
Theorem subscribe_writes_only_on_success user b st t :
  (PushHook.succeeded (PushHook.subscribe user b st t) = false ->
   PushHook.table (PushHook.subscribe user b st t) = t
   /\ PushHook.isSubscribed (PushHook.state (PushHook.subscribe user b st t))
      = PushHook.isSubscribed st)
  /\ (PushHook.succeeded (PushHook.subscribe user b st t) = true ->
      exists key subJson,
        PushHook.requestPermission b = PushHook.Fulfilled "granted"
        /\ Base64Url.urlBase64ToUint8Array (PushHook.atob b) PushHook.VAPID_PUBLIC_KEY = Some key
        /\ PushHook.pushManager_subscribe b key = PushHook.Fulfilled subJson
        /\ PushHook.upsert_error b = None
        /\ PushHook.table (PushHook.subscribe user b st t)
           = Hook.register (PushHook.fresh_id b) (PushHook.now b) (str user) subJson t
        /\ PushHook.state (PushHook.subscribe user b st t)
           = {| PushHook.isSupported := true; PushHook.permission := "granted";
                PushHook.isSubscribed := true; PushHook.loading := false |}).
Proof.
  split; [apply subscribe_failure | apply subscribe_success].
Qed.

Lemma subscribe_writes_only_on_success_witness :
  (PushHook.table (PushHook.subscribe (Some "u1") HookOutcomes.refusing HookOutcomes.idle
                     [Examples.row_other]) = [Examples.row_other]
   /\ PushHook.isSubscribed
        (PushHook.state (PushHook.subscribe (Some "u1") HookOutcomes.refusing HookOutcomes.idle
                           [Examples.row_other]))
      = PushHook.isSubscribed HookOutcomes.idle)
  /\ exists key subJson,
       PushHook.requestPermission HookOutcomes.willing = PushHook.Fulfilled "granted"
       /\ Base64Url.urlBase64ToUint8Array (PushHook.atob HookOutcomes.willing)
            PushHook.VAPID_PUBLIC_KEY = Some key
       /\ PushHook.pushManager_subscribe HookOutcomes.willing key = PushHook.Fulfilled subJson
       /\ PushHook.upsert_error HookOutcomes.willing = None
       /\ PushHook.table (PushHook.subscribe (Some "u1") HookOutcomes.willing HookOutcomes.idle
                            [Examples.row_other])
          = Hook.register (PushHook.fresh_id HookOutcomes.willing)
              (PushHook.now HookOutcomes.willing) (str (Some "u1")) subJson [Examples.row_other]
       /\ PushHook.state (PushHook.subscribe (Some "u1") HookOutcomes.willing HookOutcomes.idle
                            [Examples.row_other])
          = {| PushHook.isSupported := true; PushHook.permission := "granted";
               PushHook.isSubscribed := true; PushHook.loading := false |}.
Proof.
  split.
  - apply (subscribe_writes_only_on_success (Some "u1") HookOutcomes.refusing HookOutcomes.idle
             [Examples.row_other]). reflexivity.
  - apply (subscribe_writes_only_on_success (Some "u1") HookOutcomes.willing HookOutcomes.idle
             [Examples.row_other]). reflexivity.
Defined.

(** ** From the hook to the edge function *)

(** X17. A subscription that [subscribe] reported as activated is a
    target of the next dispatch: on a table satisfying the uniqueness
    constraint, after a successful [subscribe] by user [u], any valid
    request for [u] whose lookup succeeds on the resulting table, in a
    deployment whose VAPID keys are present and whose configuration the
    libraries accept, calls [sendNotification] for the browser's endpoint with the browser's
    keys, and the table holds exactly one row for that user and endpoint. *)
Theorem subscribed_endpoint_is_dispatched_to u b st t env w req :
  Store.unique_user_endpoint t = true ->
  PushHook.succeeded (PushHook.subscribe (Some u) b st t) = true ->
  valid req = true -> configured env = true -> accepted env w = true ->
  user_id (fields req) = Some u ->
  select_error w = None ->
  Handler.table w = PushHook.table (PushHook.subscribe (Some u) b st t) ->
  exists key subJson,
    PushHook.pushManager_subscribe b key = PushHook.Fulfilled subJson
    /\ List.length (Store.rows_for u (Hook.endpoint subJson) (Handler.table w)) = 1
    /\ In (HookOutcomes.target subJson) (sends (trace (handler env w req))).
Proof.
  intros Hu Hs Hv Hc Ha Hid He Ht.
  destruct (subscribe_success (Some u) b st t Hs) as (key & subJson & _ & _ & Hp & _ & Htab & _).
  exists key, subJson. split; [exact Hp|].
  cbn [str] in Htab. rewrite Htab in Ht. unfold Hook.register in Ht.
  destruct (upsert_single_row (PushHook.fresh_id b) (PushHook.now b)
              (Hook.upsert_values u subJson) t Hu) as (r & R & K1 & K2).
  cbn [Hook.upsert_values Store.v_user_id Store.v_endpoint Store.v_p256dh Store.v_auth]
    in R, K1, K2.
  rewrite <- Ht in R. split; [now rewrite R|].
  rewrite (dispatch_sends env w req Hv Hc Ha He). unfold subscriptions_of. rewrite Hid. cbn [str].
  assert (I : In r (Store.rows_for u (Hook.endpoint subJson) (Handler.table w)))
    by (rewrite R; now left).
  unfold Store.rows_for in I. apply filter_In in I. destruct I as [I1 I2].
  apply andb_true_iff in I2. destruct I2 as [I2 I3]. apply String.eqb_eq in I3.
  apply in_map_iff. exists r. split.
  - unfold pushSubscription_of, HookOutcomes.target. now rewrite I3, K1, K2.
  - unfold Store.select_by_user. apply filter_In. now split.
Qed.

Lemma subscribed_endpoint_is_dispatched_to_witness :
  exists key subJson,
    PushHook.pushManager_subscribe HookOutcomes.willing key = PushHook.Fulfilled subJson
    /\ List.length
         (Store.rows_for "u1" (Hook.endpoint subJson)
            (Handler.table
               (HookOutcomes.world_after
                  (PushHook.table (PushHook.subscribe (Some "u1") HookOutcomes.willing
                                     HookOutcomes.idle [Examples.row1; Examples.row_other]))))) = 1
    /\ In (HookOutcomes.target subJson)
          (sends (trace (handler Examples.env0
                           (HookOutcomes.world_after
                              (PushHook.table (PushHook.subscribe (Some "u1") HookOutcomes.willing
                                                 HookOutcomes.idle
                                                 [Examples.row1; Examples.row_other])))
                           Examples.req_approved))).
Proof.
  apply (subscribed_endpoint_is_dispatched_to "u1" HookOutcomes.willing HookOutcomes.idle
           [Examples.row1; Examples.row_other] Examples.env0
           (HookOutcomes.world_after
              (PushHook.table (PushHook.subscribe (Some "u1") HookOutcomes.willing
                                 HookOutcomes.idle [Examples.row1; Examples.row_other])))
           Examples.req_approved); reflexivity.
Defined.

(** ** [unsubscribe] *)




(** X19. [unsubscribe] never looks at the delete's answer: the final
    state and the toasts are the same whether the delete fails or not, so
    a failed delete still ends with the success toast and [isSubscribed]
    false, with the row left in the table. *)
Theorem unsubscribe_ignores_delete_error user b st t e :
  PushHook.state (PushHook.unsubscribe user (HookOutcomes.with_delete_error e b) st t)
  = PushHook.state (PushHook.unsubscribe user b st t)
  /\ PushHook.events (PushHook.unsubscribe user (HookOutcomes.with_delete_error e b) st t)
     = PushHook.events (PushHook.unsubscribe user b st t)
  /\ (forall err,
        PushHook.table (PushHook.unsubscribe user
                          (HookOutcomes.with_delete_error (Some err) b) st t) = t).
Proof.
  unfold PushHook.unsubscribe, HookOutcomes.with_delete_error.
  cbn [PushHook.sw_ready PushHook.getSubscription PushHook.sub_unsubscribe
       PushHook.delete_error].
  destruct (Handler.is_some user); cbn [negb]; [|repeat split].
  destruct (PushHook.sw_ready b) as [[]|?]; [|repeat split].
  destruct (PushHook.getSubscription b) as [[endpoint|]|?]; [|repeat split..].
  destruct (PushHook.sub_unsubscribe b); repeat split.
Qed.

(** X20. After an [unsubscribe] that went through (browser subscription
    found, success toast, delete without error), no later dispatch for the
    user calls [sendNotification] for that endpoint, whatever else the
    edge function does. *)
Theorem unsubscribed_endpoint_is_not_dispatched_to u b st t e env w req :
  PushHook.getSubscription b = PushHook.Fulfilled (Some e) ->
  PushHook.succeeded (PushHook.unsubscribe (Some u) b st t) = true ->
  PushHook.delete_error b = None ->
  valid req = true -> configured env = true ->
  user_id (fields req) = Some u ->
  Handler.table w = PushHook.table (PushHook.unsubscribe (Some u) b st t) ->
  ~ In e (map endpoint (sends (trace (handler env w req)))).
Proof.
  intros Hg Hs Hd Hv Hc Hid Ht.
  assert (Htab : Handler.table w = Store.delete_user_endpoint u e t).
  { rewrite Ht. revert Hs. unfold PushHook.unsubscribe. cbn [Handler.is_some negb].
    rewrite Hg, Hd.
    destruct (PushHook.sw_ready b) as [[]|?]; [|cbn; discriminate].
    destruct (PushHook.sub_unsubscribe b); [reflexivity | cbn; discriminate]. }
  destruct (accepted env w) eqn:Ha.
  2:{ destruct (thrown_projections env w req _ (handler_not_accepted env w req Hv Hc Ha))
        as (_ & _ & _ & S & _).
      rewrite S. intros []. }
  destruct (select_error w) as [err|] eqn:He.
  - rewrite (handler_no_subscriptions env w req Hv Hc Ha); [intros []|]. left. congruence.
  - rewrite (dispatch_sends env w req Hv Hc Ha He), map_map. cbn [pushSubscription_of endpoint].
    unfold subscriptions_of. rewrite Hid, Htab. cbn [str].
    intro Hin. apply in_map_iff in Hin. destruct Hin as (r & Hr & Hin).
    unfold Store.select_by_user in Hin. apply filter_In in Hin. destruct Hin as [Hin Hu].
    unfold Store.delete_user_endpoint in Hin. apply filter_In in Hin. destruct Hin as [_ Hk].
    rewrite Hu in Hk. cbn in Hk. apply negb_true_iff, String.eqb_neq in Hk. congruence.
Qed.

Lemma unsubscribed_endpoint_is_not_dispatched_to_witness :
  ~ In "https://push.example/e7"
       (map endpoint
          (sends (trace (handler Examples.env0
                           (HookOutcomes.world_after
                              (PushHook.table
                                 (PushHook.unsubscribe (Some "u1") HookOutcomes.willing
                                    HookOutcomes.subscribed
                                    [Examples.row "8" "u1" "https://push.example/e7";
                                     Examples.row1])))
                           Examples.req_approved)))).
Proof.
  apply (unsubscribed_endpoint_is_not_dispatched_to "u1" HookOutcomes.willing
           HookOutcomes.subscribed
           [Examples.row "8" "u1" "https://push.example/e7"; Examples.row1]
           "https://push.example/e7" Examples.env0
           (HookOutcomes.world_after
              (PushHook.table
                 (PushHook.unsubscribe (Some "u1") HookOutcomes.willing HookOutcomes.subscribed
                    [Examples.row "8" "u1" "https://push.example/e7"; Examples.row1])))
           Examples.req_approved); reflexivity.
Defined.

Lemma delete_after_upsert uid e fresh_id now v t :
  Store.v_user_id v = uid -> Store.v_endpoint v = e ->
  Store.delete_user_endpoint uid e (Store.upsert fresh_id now v t)
  = Store.delete_user_endpoint uid e t.
Proof.
  intros <- <-. unfold Store.delete_user_endpoint. apply filter_upsert.
  intros r C. unfold Store.conflicts in C. now rewrite C.
Qed.

Lemma delete_absent uid e t :
  Store.rows_for uid e t = [] -> Store.delete_user_endpoint uid e t = t.
Proof.
  unfold Store.rows_for, Store.delete_user_endpoint.
  induction t as [|r t IH]; [reflexivity|]. cbn.
  destruct ((Store.user_id r =? uid) && (Store.endpoint r =? e)); [discriminate|].
  cbn. intro H. now rewrite (IH H).
Qed.

(** X21. Subscribing and unsubscribing is a round trip on the store: if
    the table has no row for the user and the browser's endpoint, then
    whatever [subscribe] did, an [unsubscribe] that goes through for that
    endpoint (success toast, delete without error) leaves the table exactly
    as it was before the [subscribe]. *)
Theorem subscribe_then_unsubscribe_restores_the_table u b b' st st' t e :
  Store.rows_for u e t = [] ->
  (forall key subJson, PushHook.pushManager_subscribe b key = PushHook.Fulfilled subJson ->
                       Hook.endpoint subJson = e) ->
  PushHook.getSubscription b' = PushHook.Fulfilled (Some e) ->
  PushHook.succeeded (PushHook.unsubscribe (Some u) b' st'
                        (PushHook.table (PushHook.subscribe (Some u) b st t))) = true ->
  PushHook.delete_error b' = None ->
  PushHook.table (PushHook.unsubscribe (Some u) b' st'
                    (PushHook.table (PushHook.subscribe (Some u) b st t))) = t.
Proof.
  intros Hr Hsame Hg Hs Hd.
  set (t1 := PushHook.table (PushHook.subscribe (Some u) b st t)) in *.
  assert (Htab : PushHook.table (PushHook.unsubscribe (Some u) b' st' t1)
                 = Store.delete_user_endpoint u e t1).
  { revert Hs. unfold PushHook.unsubscribe. cbn [Handler.is_some negb]. rewrite Hg, Hd.
    destruct (PushHook.sw_ready b') as [[]|?]; [|cbn; discriminate].
    destruct (PushHook.sub_unsubscribe b'); [reflexivity | cbn; discriminate]. }
  rewrite Htab. subst t1.
  destruct (PushHook.succeeded (PushHook.subscribe (Some u) b st t)) eqn:S.
  - destruct (subscribe_success (Some u) b st t S) as (key & subJson & _ & _ & Hp & _ & -> & _).
    unfold Hook.register. cbn [str].
    rewrite (delete_after_upsert u e); [now apply delete_absent | reflexivity |].
    cbn. now apply (Hsame key).
  - destruct (subscribe_failure (Some u) b st t S) as [-> _]. now apply delete_absent.
Qed.

Lemma subscribe_then_unsubscribe_restores_the_table_witness :
  PushHook.table
    (PushHook.unsubscribe (Some "u1") HookOutcomes.willing HookOutcomes.subscribed
       (PushHook.table (PushHook.subscribe (Some "u1") HookOutcomes.willing HookOutcomes.idle
                          [Examples.row1; Examples.row_other])))
  = [Examples.row1; Examples.row_other].
Proof.
  apply (subscribe_then_unsubscribe_restores_the_table "u1" HookOutcomes.willing
           HookOutcomes.willing HookOutcomes.idle HookOutcomes.subscribed
           [Examples.row1; Examples.row_other] "https://push.example/e7");
    try reflexivity.
  intros key subJson H. inversion H. reflexivity.
Defined.

(** * Properties of the key conversion *)

Lemma length_append s1 s2 :
  String.length (s1 ++ s2)%string = String.length s1 + String.length s2.
Proof. induction s1 as [|c s1 IH]; cbn; [reflexivity | now rewrite IH]. Qed.

Lemma length_replace_char a b s :
  String.length (Base64Url.replace_char a b s) = String.length s.
Proof. induction s as [|c s IH]; cbn; [reflexivity | now rewrite IH]. Qed.

Lemma length_js_repeat_char c n :
  String.length (Base64Url.js_repeat (String c EmptyString) n) = n.
Proof. induction n as [|n IH]; cbn; [reflexivity | now rewrite IH]. Qed.

Lemma replace_char_append a b s1 s2 :
  Base64Url.replace_char a b (s1 ++ s2)%string
  = (Base64Url.replace_char a b s1 ++ Base64Url.replace_char a b s2)%string.
Proof. induction s1 as [|c s1 IH]; cbn; [reflexivity | now rewrite IH]. Qed.

Lemma padding_cases s :
  Base64Url.padding s = ""%string \/ Base64Url.padding s = "="%string
  \/ Base64Url.padding s = "=="%string \/ Base64Url.padding s = "==="%string.
Proof.
  unfold Base64Url.padding.
  assert (H : (4 - String.length s mod 4) mod 4 < 4) by (apply Nat.mod_upper_bound; lia).
  destruct ((4 - String.length s mod 4) mod 4) as [|[|[|[|n]]]]; cbn; auto. lia.
Qed.

Lemma base64_split s :
  Base64Url.base64 s
  = (Base64Url.replace_char "_" "/" (Base64Url.replace_char "-" "+" s)
     ++ Base64Url.padding s)%string.
Proof.
  unfold Base64Url.base64. rewrite !replace_char_append. f_equal.
  destruct (padding_cases s) as [-> | [-> | [-> | ->]]]; reflexivity.
Qed.

(** X22. Whatever string it is given, [urlBase64ToUint8Array] hands
    [atob] a string whose length is a multiple of 4, made of the input
    followed by at most three ['='] characters. *)
Theorem base64_length_is_a_multiple_of_four s :
  String.length (Base64Url.base64 s) mod 4 = 0
  /\ String.length s <= String.length (Base64Url.base64 s) <= String.length s + 3.
Proof.
  unfold Base64Url.base64. rewrite !length_replace_char, length_append.
  unfold Base64Url.padding. rewrite length_js_repeat_char.
  pose proof (Nat.div_mod_eq (String.length s) 4) as D.
  assert (B : String.length s mod 4 < 4) by (apply Nat.mod_upper_bound; lia).
  set (m := String.length s mod 4) in *. set (q := String.length s / 4) in *.
  assert (M : forall k, (4 * k) mod 4 = 0).
  { intro k. rewrite Nat.mul_comm. apply Nat.Div0.mod_mul. }
  destruct m as [|[|[|[|m]]]]; try lia; rewrite D.
  - change ((4 - 0) mod 4) with 0. split; [|lia].
    replace (4 * q + 0 + 0) with (4 * q) by lia. apply M.
  - change ((4 - 1) mod 4) with 3. split; [|lia].
    replace (4 * q + 1 + 3) with (4 * (q + 1)) by lia. apply M.
  - change ((4 - 2) mod 4) with 2. split; [|lia].
    replace (4 * q + 2 + 2) with (4 * (q + 1)) by lia. apply M.
  - change ((4 - 3) mod 4) with 1. split; [|lia].
    replace (4 * q + 3 + 1) with (4 * (q + 1)) by lia. apply M.
Qed.

Lemma url_char_becomes_base64_char c :
  Base64Url.is_base64url_char c = true ->
  Base64Url.is_base64_char
    (if Ascii.eqb (if Ascii.eqb c "-" then "+"%char else c) "_"
     then "/"%char else (if Ascii.eqb c "-" then "+"%char else c)) = true.
Proof.
  destruct c as [b0 b1 b2 b3 b4 b5 b6 b7].
  destruct b0, b1, b2, b3, b4, b5, b6, b7; vm_compute; intro H; congruence.
Qed.

Lemma no_url_char_left c :
  let c' := if Ascii.eqb (if Ascii.eqb c "-" then "+"%char else c) "_"
            then "/"%char else (if Ascii.eqb c "-" then "+"%char else c) in
  Ascii.eqb c' "-" || Ascii.eqb c' "_" = false.
Proof.
  destruct c as [b0 b1 b2 b3 b4 b5 b6 b7].
  destruct b0, b1, b2, b3, b4, b5, b6, b7; vm_compute; reflexivity.
Qed.

(** X23. The string handed to [atob] never contains ['-'] or ['_'].  For
    an input written in the URL-safe alphabet (letters, digits, ['-'],
    ['_']), it is a string of the same length in the standard alphabet
    (letters, digits, ['+'], ['/']) followed by the ['='] padding. *)
Theorem base64_is_in_the_standard_alphabet s :
  Base64Url.all_chars (fun c => negb (Ascii.eqb c "-" || Ascii.eqb c "_"))
                      (Base64Url.base64 s) = true
  /\ (Base64Url.all_chars Base64Url.is_base64url_char s = true ->
      exists body,
        Base64Url.base64 s = (body ++ Base64Url.padding s)%string
        /\ String.length body = String.length s
        /\ Base64Url.all_chars Base64Url.is_base64_char body = true).
Proof.
  split.
  - unfold Base64Url.base64. generalize (s ++ Base64Url.padding s)%string as x.
    induction x as [|c x IH]; [reflexivity|]. cbn [Base64Url.replace_char Base64Url.all_chars].
    rewrite IH, andb_true_r. apply negb_true_iff. apply no_url_char_left.
  - intro H. exists (Base64Url.replace_char "_" "/" (Base64Url.replace_char "-" "+" s)).
    split; [apply base64_split|]. split; [now rewrite !length_replace_char|].
    induction s as [|c s IH]; [reflexivity|].
    cbn [Base64Url.replace_char Base64Url.all_chars] in *.
    apply andb_true_iff in H. destruct H as [Hc Hs].
    rewrite (IH Hs), andb_true_r. now apply url_char_becomes_base64_char.
Qed.

Lemma base64_is_in_the_standard_alphabet_witness :
  exists body,
    Base64Url.base64 PushHook.VAPID_PUBLIC_KEY
    = (body ++ Base64Url.padding PushHook.VAPID_PUBLIC_KEY)%string
    /\ String.length body = String.length PushHook.VAPID_PUBLIC_KEY
    /\ Base64Url.all_chars Base64Url.is_base64_char body = true.
Proof.
  apply (base64_is_in_the_standard_alphabet PushHook.VAPID_PUBLIC_KEY). reflexivity.
Defined.

Lemma replace_char_absent a b s :
  Base64Url.all_chars (fun c => negb (Ascii.eqb c a)) s = true ->
  Base64Url.replace_char a b s = s.
Proof.
  induction s as [|c s IH]; [reflexivity|]. cbn. rewrite andb_true_iff, negb_true_iff.
  intros [-> H]. now rewrite (IH H).
Qed.

(** X24. A key already in standard, padded form goes through unchanged:
    if the input's length is a multiple of 4 and it contains neither ['-']
    nor ['_'], the string handed to [atob] is the input itself. *)
Theorem base64_leaves_standard_input_alone s :
  String.length s mod 4 = 0 ->
  Base64Url.all_chars (fun c => negb (Ascii.eqb c "-" || Ascii.eqb c "_")) s = true ->
  Base64Url.base64 s = s.
Proof.
  intros Hl Hc. rewrite base64_split. unfold Base64Url.padding. rewrite Hl. cbn.
  assert (A : forall x, (x ++ "")%string = x).
  { induction x as [|c x IH]; cbn; [reflexivity | now rewrite IH]. }
  rewrite A.
  assert (H1 : Base64Url.all_chars (fun c => negb (Ascii.eqb c "-")) s = true
               /\ Base64Url.all_chars (fun c => negb (Ascii.eqb c "_")) s = true).
  { clear Hl A. induction s as [|c s IH]; [split; reflexivity|]. cbn in *.
    apply andb_true_iff in Hc. destruct Hc as [Hc Hs]. destruct (IH Hs) as [-> ->].
    apply negb_true_iff, orb_false_iff in Hc. destruct Hc as [-> ->]. split; reflexivity. }
  destruct H1 as [H1 H2]. now rewrite (replace_char_absent _ _ _ H1), (replace_char_absent _ _ _ H2).
Qed.

Lemma base64_leaves_standard_input_alone_witness :
  Base64Url.base64 "BEkNKqoY4CBr+2jp/Edc" = "BEkNKqoY4CBr+2jp/Edc"%string.
Proof.
  apply (base64_leaves_standard_input_alone "BEkNKqoY4CBr+2jp/Edc"); reflexivity.
Defined.

(** * Properties of the service worker *)

Lemma value_or_truthy (J : ServiceWorker.JsValues) v dflt :
  ServiceWorker.truthy_value J dflt = true ->
  ServiceWorker.truthy_value J (ServiceWorker.value_or v dflt) = true.
Proof.
  intro H. unfold ServiceWorker.value_or. destruct v as [x|]; [|exact H].
  destruct (ServiceWorker.truthy_value J x) eqn:E; [exact E | exact H].
Qed.

(** X25. Whatever JavaScript values the parsed payload holds in its
    properties, the title, icon, badge and tag the service worker hands to
    [showNotification] are never falsy, so when one of them is a string it
    is not empty (a truthy value that is not a string, such as [[]], is
    handed over as it is); the vibration is always 200-100-200.  When the
    data is not JSON, the title is ["LampaTrack"] and the body is the data's
    text; without data nothing is shown. *)
Theorem shown_notification_is_never_blank (J : ServiceWorker.JsValues)
        (data : ServiceWorker.EventData J) :
  ServiceWorker.lawful J ->
  (forall title o, ServiceWorker.on_push data = ServiceWorker.Shown title o ->
     ServiceWorker.truthy_value J title = true
     /\ ServiceWorker.truthy_value J (ServiceWorker.o_icon o) = true
     /\ ServiceWorker.truthy_value J (ServiceWorker.o_badge o) = true
     /\ ServiceWorker.truthy_value J (ServiceWorker.o_tag o) = true
     /\ ServiceWorker.o_vibrate o = [200; 100; 200]
     /\ (forall s, title = ServiceWorker.of_string J s
                   \/ ServiceWorker.o_icon o = ServiceWorker.of_string J s
                   \/ ServiceWorker.o_badge o = ServiceWorker.of_string J s
                   \/ ServiceWorker.o_tag o = ServiceWorker.of_string J s ->
                   s <> ""%string))
  /\ (forall text, data = ServiceWorker.SomeData text ServiceWorker.ParseThrows ->
        exists o, ServiceWorker.on_push data
                  = ServiceWorker.Shown (ServiceWorker.of_string J "LampaTrack") o
                  /\ ServiceWorker.o_body o = ServiceWorker.of_string J text)
  /\ (data = ServiceWorker.NoData -> ServiceWorker.on_push data = ServiceWorker.Ignored).
Proof.
  intros (Ls & Ld & Le).
  assert (N : forall s, ServiceWorker.truthy_value J (ServiceWorker.of_string J s) = true ->
                        s <> ""%string).
  { intros s H. rewrite Ls in H. apply negb_true_iff in H. now apply String.eqb_neq. }
  assert (T : forall s, s <> ""%string ->
                        ServiceWorker.truthy_value J (ServiceWorker.of_string J s) = true).
  { intros s H. rewrite Ls. apply negb_true_iff. now apply String.eqb_neq. }
  split; [|split].
  - assert (S : forall m title o, ServiceWorker.show m = ServiceWorker.Shown title o ->
                  ServiceWorker.truthy_value J title = true
                  /\ ServiceWorker.truthy_value J (ServiceWorker.o_icon o) = true
                  /\ ServiceWorker.truthy_value J (ServiceWorker.o_badge o) = true
                  /\ ServiceWorker.truthy_value J (ServiceWorker.o_tag o) = true
                  /\ ServiceWorker.o_vibrate o = [200; 100; 200]).
    { intros m title o H. unfold ServiceWorker.show in H. inversion H; subst.
      cbn [ServiceWorker.o_icon ServiceWorker.o_badge ServiceWorker.o_tag
           ServiceWorker.o_vibrate].
      repeat split; apply value_or_truthy; apply T; discriminate. }
    intros title o H.
    assert (Q : ServiceWorker.truthy_value J title = true
                /\ ServiceWorker.truthy_value J (ServiceWorker.o_icon o) = true
                /\ ServiceWorker.truthy_value J (ServiceWorker.o_badge o) = true
                /\ ServiceWorker.truthy_value J (ServiceWorker.o_tag o) = true
                /\ ServiceWorker.o_vibrate o = [200; 100; 200]).
    { destruct data as [|text [| |m]]; cbn in H; try discriminate; eapply S; exact H. }
    destruct Q as (Q1 & Q2 & Q3 & Q4 & Q5). repeat split; auto.
    intros s [E | [E | [E | E]]]; apply N; rewrite <- E; assumption.
  - intros text ->. cbn. unfold ServiceWorker.show.
    cbn [ServiceWorker.m_title ServiceWorker.m_body ServiceWorker.value_or].
    rewrite (T "LampaTrack"%string) by discriminate. eexists. split; [reflexivity|].
    cbn [ServiceWorker.o_body]. rewrite Ls.
    destruct (text =? "") eqn:E; cbn; [|reflexivity].
    apply String.eqb_eq in E. now subst.
  - intros ->. reflexivity.
Qed.

Lemma shown_notification_is_never_blank_witness :
  ServiceWorker.truthy_value ServiceWorker.js ServiceWorker.JsEmptyArray = true
  /\ ServiceWorker.truthy_value ServiceWorker.js
       (ServiceWorker.o_tag ServiceWorker.odd_options) = true.
Proof.
  destruct (shown_notification_is_never_blank ServiceWorker.js
              (ServiceWorker.SomeData "payload"
                 (ServiceWorker.ParsedValue ServiceWorker.odd_message))) as (H & _).
  - repeat split; intros; reflexivity.
  - destruct (H ServiceWorker.JsEmptyArray ServiceWorker.odd_options eq_refl)
      as (H1 & _ & _ & H4 & _).
    split; [exact H1 | exact H4].
Defined.



(** X27. A click on a notification focuses the first open window that
    can be focused and whose URL contains ['/'], and opens no window then;
    a new window on ["/"] is opened only when there is no such window and
    the platform can open one. *)
Theorem click_focuses_before_opening clientList openWindow :
  (forall c, ServiceWorker.on_notificationclick clientList openWindow = ServiceWorker.Focus c ->
     exists before after,
       clientList = before ++ c :: after
       /\ ServiceWorker.includes_slash (ServiceWorker.url c) && ServiceWorker.has_focus c = true
       /\ forallb (fun x => negb (ServiceWorker.includes_slash (ServiceWorker.url x)
                                  && ServiceWorker.has_focus x)) before = true)
  /\ (forall target,
        ServiceWorker.on_notificationclick clientList openWindow
        = ServiceWorker.OpenWindow target ->
        target = "/"%string /\ openWindow = true
        /\ forallb (fun x => negb (ServiceWorker.includes_slash (ServiceWorker.url x)
                                   && ServiceWorker.has_focus x)) clientList = true)
  /\ (ServiceWorker.on_notificationclick clientList openWindow = ServiceWorker.NoAction ->
      openWindow = false
      /\ forallb (fun x => negb (ServiceWorker.includes_slash (ServiceWorker.url x)
                                 && ServiceWorker.has_focus x)) clientList = true).
Proof.
  assert (F : match ServiceWorker.focus_first clientList with
              | Some c => exists before after,
                  clientList = before ++ c :: after
                  /\ ServiceWorker.includes_slash (ServiceWorker.url c)
                     && ServiceWorker.has_focus c = true
                  /\ forallb (fun x => negb (ServiceWorker.includes_slash (ServiceWorker.url x)
                                             && ServiceWorker.has_focus x)) before = true
              | None => forallb (fun x => negb (ServiceWorker.includes_slash (ServiceWorker.url x)
                                                && ServiceWorker.has_focus x)) clientList = true
              end).
  { induction clientList as [|x l IH]; [reflexivity|]. cbn.
    destruct (ServiceWorker.includes_slash (ServiceWorker.url x) && ServiceWorker.has_focus x) eqn:Q.
    - exists [], l. repeat split. exact Q.
    - cbn. destruct (ServiceWorker.focus_first l) as [c|]; [|exact IH].
      destruct IH as (before & after & -> & Hq & Hb).
      exists (x :: before), after. repeat split; [exact Hq|]. cbn. now rewrite Q. }
  unfold ServiceWorker.on_notificationclick.
  destruct (ServiceWorker.focus_first clientList) as [c|].
  - repeat split; try discriminate. intros c' H. inversion H; subst. exact F.
  - split; [intros c H; destruct openWindow; discriminate|]. split.
    + intros target H. destruct openWindow; [|discriminate]. inversion H. auto.
    + intro H. destruct openWindow; [discriminate|]. auto.
Qed.

Lemma click_focuses_before_opening_witness :
  exists before after,
    [ {| ServiceWorker.url := "https://lampatrack.example/"; ServiceWorker.has_focus := false |};
      {| ServiceWorker.url := "https://lampatrack.example/map"; ServiceWorker.has_focus := true |} ]
    = before
      ++ {| ServiceWorker.url := "https://lampatrack.example/map";
            ServiceWorker.has_focus := true |} :: after
    /\ ServiceWorker.includes_slash "https://lampatrack.example/map" && true = true
    /\ forallb (fun x => negb (ServiceWorker.includes_slash (ServiceWorker.url x)
                               && ServiceWorker.has_focus x)) before = true.
Proof.
  apply (proj1 (click_focuses_before_opening
                  [ {| ServiceWorker.url := "https://lampatrack.example/";
                       ServiceWorker.has_focus := false |};
                    {| ServiceWorker.url := "https://lampatrack.example/map";
                       ServiceWorker.has_focus := true |} ] true)
               {| ServiceWorker.url := "https://lampatrack.example/map";
                  ServiceWorker.has_focus := true |}).
  reflexivity.
Defined.
